(** * Surface creation of the Vulkan back end (video_core/vulkan_common/vulkan_surface.cpp)

    A shallow embedding of [MetalLayer] and [Vulkan::CreateSurface].

    The two functions talk to three collaborators that are not part of the
    translation unit: the Objective-C runtime ([objc_getClass],
    [objc_msgSend]), the instance dispatch table ([vkGetInstanceProcAddr] and
    the surface constructors it hands out) and the logger.  They are kept in
    an explicit [World]; the code runs in a state-and-exception monad over
    it, and every external call leaves an [Event] behind so that statements
    such as "the constructor was not invoked" can be read off the run. *)

From Stdlib Require Import ZArith String List Bool Lia.
From Stdlib Require Import Floats.PrimFloat.
Import ListNotations.

Local Open Scope string_scope.
Local Open Scope list_scope.
Local Open Scope Z_scope.

(** ** Pointers and Vulkan constants *)

(** [void*], [HWND], [Display*], [Window], [VkInstance], [VkSurfaceKHR]:
    all opaque machine words; only the null test is ever applied to them. *)
Definition ptr := Z.
Definition nullptr : ptr := 0.

Definition VkInstance := ptr.
Definition VkSurfaceKHR := ptr.

Definition VkResult := Z.
Definition VK_SUCCESS : VkResult := 0.
Definition VK_ERROR_INITIALIZATION_FAILED : VkResult := -3.

Definition VkStructureType := Z.
Definition VK_STRUCTURE_TYPE_XLIB_SURFACE_CREATE_INFO_KHR : VkStructureType := 1000004000.
Definition VK_STRUCTURE_TYPE_WAYLAND_SURFACE_CREATE_INFO_KHR : VkStructureType := 1000006000.
Definition VK_STRUCTURE_TYPE_WIN32_SURFACE_CREATE_INFO_KHR : VkStructureType := 1000009000.
Definition VK_STRUCTURE_TYPE_METAL_SURFACE_CREATE_INFO_EXT : VkStructureType := 1000217000.

(** The creation records, fields in the order of the Vulkan headers, which is
    the order the aggregate initialisers of the source fill them in. *)
Record VkWin32SurfaceCreateInfoKHR := {
  win32_sType : VkStructureType;
  win32_pNext : ptr;
  win32_flags : Z;
  hinstance : ptr;
  hwnd : ptr }.

Record VkMetalSurfaceCreateInfoEXT := {
  metal_sType : VkStructureType;
  metal_pNext : ptr;
  metal_flags : Z;
  pLayer : ptr }.

Record VkXlibSurfaceCreateInfoKHR := {
  xlib_sType : VkStructureType;
  xlib_pNext : ptr;
  xlib_flags : Z;
  dpy : ptr;
  window : Z }.

Record VkWaylandSurfaceCreateInfoKHR := {
  wayland_sType : VkStructureType;
  wayland_pNext : ptr;
  wayland_flags : Z;
  display : ptr;
  surface : ptr }.

(** What a surface constructor receives through its [pCreateInfo] argument. *)
Inductive CreateInfo :=
| Win32CreateInfo (ci : VkWin32SurfaceCreateInfoKHR)
| MetalCreateInfo (ci : VkMetalSurfaceCreateInfoEXT)
| XlibCreateInfo (ci : VkXlibSurfaceCreateInfoKHR)
| WaylandCreateInfo (ci : VkWaylandSurfaceCreateInfoKHR).

(** A resolved surface constructor
    [VkResult f(VkInstance, const CreateInfo*, const VkAllocationCallbacks*, VkSurfaceKHR* pSurface)]:
    it answers a status and the value it leaves in [*pSurface], given the
    value found there.  The allocator argument is always [nullptr]. *)
Definition PFN_vkCreateSurface :=
  VkInstance -> CreateInfo -> VkSurfaceKHR -> VkResult * VkSurfaceKHR.

(** Modelled from the spec: [vk::InstanceDispatch] is declared in
    vulkan_wrapper.h, which is not among the sources.  Of the table only the
    by-name resolver is used; [None] is the null function pointer. *)
Record InstanceDispatch := {
  vkGetInstanceProcAddr : VkInstance -> string -> option PFN_vkCreateSurface }.

(** Modelled from the spec: [vk::Instance] (vulkan_wrapper.h), an opened
    instance with its function table; [handle] is what the dereference of
    the instance yields. *)
Record Instance := {
  handle : VkInstance;
  Dispatch : InstanceDispatch }.

(** Modelled from the spec: [vk::SurfaceKHR] (vulkan_wrapper.h), the raw
    handle bound to the instance it came from and to that instance's
    function table. *)
Record SurfaceKHR := {
  surface_handle : VkSurfaceKHR;
  surface_owner : VkInstance;
  surface_dld : InstanceDispatch }.

(** Modelled from the spec: [vk::Exception] (vulkan_wrapper.h), carrying a
    [VkResult]. *)
Inductive Exception := vk_Exception (result : VkResult).

(** ** The window descriptor (core/frontend/emu_window.h) *)

(** Modelled from the spec: the header declaring
    [Core::Frontend::WindowSystemType] is not among the sources.  The four
    discriminants the code compares against keep their names; [Unsupported]
    is the spec's fifth variant, which no builder matches. *)
Inductive WindowSystemType := Unsupported | Windows | MacOs | X11 | Wayland.

Definition WindowSystemType_eqb (a b : WindowSystemType) : bool :=
  match a, b with
  | Unsupported, Unsupported | Windows, Windows | MacOs, MacOs
  | X11, X11 | Wayland, Wayland => true
  | _, _ => false
  end.

(** Modelled from the spec: the discriminant and the two opaque handles of
    [EmuWindow::WindowSystemInfo]. *)
Record WindowSystemInfo := {
  type : WindowSystemType;
  display_connection : ptr;
  render_surface : ptr }.

Record EmuWindow := { GetWindowInfo : WindowSystemInfo }.

(** ** Build target *)

(** The two preprocessor symbols the file tests.  Only the conditional
    structure of [CreateSurface] (lines 79, 93, 107) is modelled; the
    anonymous namespace opened inside the Apple-only region at line 30 and
    closed outside it at line 69 plays no part in what the function does. *)
Record Build := { _WIN32 : bool; __APPLE__ : bool }.

Definition build_windows : Build := {| _WIN32 := true; __APPLE__ := false |}.
Definition build_apple : Build := {| _WIN32 := false; __APPLE__ := true |}.
Definition build_linux : Build := {| _WIN32 := false; __APPLE__ := false |}.

(** ** The Objective-C runtime *)

Module Objc.

Definition id := ptr.
Definition Class := ptr.
Definition SEL := string.
Definition nil : id := 0.
Definition YES : bool := true.

Inductive Arg := ArgBOOL (b : bool) | ArgId (o : id) | ArgDouble (d : float).
Inductive Ret := RetVoid | RetId (o : id) | RetDouble (d : float).

(** The function-pointer casts applied to [objc_msgSend] decide how the
    answer is read; an answer of another shape reads as zero. *)
Definition as_id (r : Ret) : id :=
  match r with RetId o => o | _ => nil end.
Definition as_double (r : Ret) : float :=
  match r with RetDouble d => d | _ => 0%float end.

(** The part of the runtime state the adapter can observe or change. *)
Record Runtime := {
  classes : string -> Class;          (* objc_getClass; Nil when not loaded *)
  fresh_layer : id;                   (* what +[CAMetalLayer layer] hands out; nil on failure *)
  mainScreen : id;                    (* +[NSScreen mainScreen] *)
  backingScaleFactor : id -> float;   (* -[NSScreen backingScaleFactor] *)
  wantsLayer : id -> bool;            (* -[NSView wantsLayer] *)
  layer : id -> id;                   (* -[NSView layer] *)
  contentsScale : id -> float }.      (* -[CALayer contentsScale] *)

Definition upd {V} (f : id -> V) (o : id) (v : V) : id -> V :=
  fun o' => if o' =? o then v else f o'.

Definition setWantsLayer (rt : Runtime) (o : id) (b : bool) : Runtime :=
  {| classes := classes rt; fresh_layer := fresh_layer rt;
     mainScreen := mainScreen rt; backingScaleFactor := backingScaleFactor rt;
     wantsLayer := upd (wantsLayer rt) o b;
     layer := layer rt; contentsScale := contentsScale rt |}.

Definition setLayer (rt : Runtime) (o l : id) : Runtime :=
  {| classes := classes rt; fresh_layer := fresh_layer rt;
     mainScreen := mainScreen rt; backingScaleFactor := backingScaleFactor rt;
     wantsLayer := wantsLayer rt;
     layer := upd (layer rt) o l; contentsScale := contentsScale rt |}.

Definition setContentsScale (rt : Runtime) (o : id) (d : float) : Runtime :=
  {| classes := classes rt; fresh_layer := fresh_layer rt;
     mainScreen := mainScreen rt; backingScaleFactor := backingScaleFactor rt;
     wantsLayer := wantsLayer rt;
     layer := layer rt; contentsScale := upd (contentsScale rt) o d |}.

Definition sel_getUid (name : string) : SEL := name.

(** Message dispatch.  A message to [nil] does nothing and answers zero;
    the two class messages are answered by the class object only. *)
Definition objc_msgSend (rt : Runtime) (self : id) (op : SEL) (args : list Arg)
  : Ret * Runtime :=
  if self =? nil then (RetVoid, rt)
  else if String.eqb op "layer" then
    (RetId (if self =? classes rt "CAMetalLayer" then fresh_layer rt
            else layer rt self), rt)
  else if String.eqb op "mainScreen" then
    (RetId (if self =? classes rt "NSScreen" then mainScreen rt else nil), rt)
  else if String.eqb op "backingScaleFactor" then
    (RetDouble (backingScaleFactor rt self), rt)
  else if String.eqb op "setWantsLayer:" then
    match args with
    | [ArgBOOL b] => (RetVoid, setWantsLayer rt self b)
    | _ => (RetVoid, rt)
    end
  else if String.eqb op "setLayer:" then
    match args with
    | [ArgId l] => (RetVoid, setLayer rt self l)
    | _ => (RetVoid, rt)
    end
  else if String.eqb op "setContentsScale:" then
    match args with
    | [ArgDouble d] => (RetVoid, setContentsScale rt self d)
    | _ => (RetVoid, rt)
    end
  else (RetVoid, rt).

End Objc.

(** ** The world and the monad the code runs in *)

Inductive Event :=
| Ev_objc_getClass (name : string)
| Ev_objc_msgSend (self : Objc.id) (op : Objc.SEL) (args : list Objc.Arg)
| Ev_vkGetInstanceProcAddr (instance : VkInstance) (name : string)
| Ev_vkCreateSurface (name : string) (instance : VkInstance) (ci : CreateInfo)
    (status : VkResult).

Record World := {
  runtime : Objc.Runtime;
  calls : list Event;      (* external calls, oldest first *)
  log : list string }.     (* LOG_ERROR lines, oldest first *)

Inductive Outcome (A : Type) :=
| Returned (a : A)
| Thrown (e : Exception).
Arguments Returned {A} a.
Arguments Thrown {A} e.

Definition M (A : Type) := World -> Outcome A * World.

Definition ret {A} (a : A) : M A := fun w => (Returned a, w).

Definition bind {A B} (c : M A) (k : A -> M B) : M B :=
  fun w =>
    match c w with
    | (Returned a, w') => k a w'
    | (Thrown e, w') => (Thrown e, w')
    end.

Definition throw {A} (e : Exception) : M A := fun w => (Thrown e, w).

Declare Scope cxx_scope.
Delimit Scope cxx_scope with cxx.
Notation "x <- c ;; k" := (bind c (fun x => k))
  (at level 61, c at next level, right associativity) : cxx_scope.
Notation "c ;; k" := (bind c (fun _ => k))
  (at level 61, right associativity) : cxx_scope.
Local Open Scope cxx_scope.

(** Appending an external call to the history. *)
Definition record (e : Event) (w : World) : World :=
  {| runtime := runtime w; calls := calls w ++ [e]; log := log w |}.

(** Modelled from the spec: the logging macro comes from
    common/logging/log.h, which is not among the sources; the logger is an
    outside collaborator that takes the line and does nothing else. *)
Definition LOG_ERROR (msg : string) : M unit :=
  fun w => (Returned tt,
            {| runtime := runtime w; calls := calls w; log := log w ++ [msg] |}).

Definition objc_getClass (name : string) : M Objc.Class :=
  fun w => (Returned (Objc.classes (runtime w) name), record (Ev_objc_getClass name) w).

Definition objc_msgSend (self : Objc.id) (op : Objc.SEL) (args : list Objc.Arg)
  : M Objc.Ret :=
  fun w =>
    let '(r, rt) := Objc.objc_msgSend (runtime w) self op args in
    (Returned r,
     {| runtime := rt; calls := calls w ++ [Ev_objc_msgSend self op args];
        log := log w |}).

(** [dld.vkGetInstanceProcAddr] applied to the raw instance handle and a name. *)
Definition GetInstanceProcAddr (dld : InstanceDispatch) (instance : VkInstance)
  (name : string) : M (option PFN_vkCreateSurface) :=
  fun w => (Returned (vkGetInstanceProcAddr dld instance name),
            record (Ev_vkGetInstanceProcAddr instance name) w).

(** Calling through a resolved constructor: the raw instance handle, the
    address of the creation record, a null allocator and the address of
    [unsafe_surface]. *)
Definition invoke (name : string) (f : PFN_vkCreateSurface) (instance : VkInstance)
  (ci : CreateInfo) (unsafe_surface : VkSurfaceKHR) : M (VkResult * VkSurfaceKHR) :=
  fun w =>
    let r := f instance ci unsafe_surface in
    (Returned r, record (Ev_vkCreateSurface name instance ci (fst r)) w).

(** ** The native view-layer adapter: [MetalLayer], lines 32-66 *)

Definition MetalLayer (render_surface : ptr) : M ptr :=
  let view : Objc.id := render_surface in
  clsCAMetalLayer <- objc_getClass "CAMetalLayer" ;;
  if clsCAMetalLayer =? 0 then
    (LOG_ERROR "Failed to get CAMetalLayer class." ;;
     ret nullptr)
  else
    (* [CAMetalLayer layer] *)
    (cls <- objc_getClass "CAMetalLayer" ;;
     r <- objc_msgSend cls (Objc.sel_getUid "layer") [] ;;
     let layer := Objc.as_id r in
     if layer =? 0 then
       (LOG_ERROR "Failed to create Metal layer." ;;
        ret nullptr)
     else
       (* [view setWantsLayer:YES] *)
       (objc_msgSend view (Objc.sel_getUid "setWantsLayer:") [Objc.ArgBOOL Objc.YES] ;;
        (* [view setLayer:layer] *)
        objc_msgSend view (Objc.sel_getUid "setLayer:") [Objc.ArgId layer] ;;
        (* NSScreen* screen = [NSScreen mainScreen] *)
        clsNSScreen <- objc_getClass "NSScreen" ;;
        r <- objc_msgSend clsNSScreen (Objc.sel_getUid "mainScreen") [] ;;
        let screen := Objc.as_id r in
        (* CGFloat factor = [screen backingScaleFactor] *)
        r <- objc_msgSend screen (Objc.sel_getUid "backingScaleFactor") [] ;;
        let factor := Objc.as_double r in
        (* layer.contentsScale = factor *)
        objc_msgSend layer (Objc.sel_getUid "setContentsScale:") [Objc.ArgDouble factor] ;;
        (* render_surface = layer: the parameter is a copy, the caller's
           handle is not touched *)
        ret layer)).

(** ** The per-platform builders: the four [if] blocks of [CreateSurface] *)

(** The test [!f || f(instance, &ci, nullptr, &unsafe_surface) != VK_SUCCESS]:
    the constructor runs only when the pointer is not null; the answer is
    the truth value of the test and the content of [unsafe_surface]
    afterwards. *)
Definition absent_or_failed (name : string) (f : option PFN_vkCreateSurface)
  (instance : VkInstance) (ci : CreateInfo) (unsafe_surface : VkSurfaceKHR)
  : M (bool * VkSurfaceKHR) :=
  match f with
  | None => ret (true, unsafe_surface)
  | Some f =>
      r <- invoke name f instance ci unsafe_surface ;;
      ret (negb (fst r =? VK_SUCCESS), snd r)
  end.

(** Lines 80-91. *)
Definition CreateSurface_Win32 (instance : Instance) (window_info : WindowSystemInfo)
  (unsafe_surface : VkSurfaceKHR) : M VkSurfaceKHR :=
  let dld := Dispatch instance in
  if WindowSystemType_eqb (type window_info) Windows then
    let hWnd := render_surface window_info in
    let win32_ci :=
      {| win32_sType := VK_STRUCTURE_TYPE_WIN32_SURFACE_CREATE_INFO_KHR;
         win32_pNext := nullptr; win32_flags := 0; hinstance := nullptr;
         hwnd := hWnd |} in
    vkCreateWin32SurfaceKHR <-
      GetInstanceProcAddr dld (handle instance) "vkCreateWin32SurfaceKHR" ;;
    t <- absent_or_failed "vkCreateWin32SurfaceKHR" vkCreateWin32SurfaceKHR
           (handle instance) (Win32CreateInfo win32_ci) unsafe_surface ;;
    if fst t then
      (LOG_ERROR "Failed to initialize Win32 surface" ;;
       throw (vk_Exception VK_ERROR_INITIALIZATION_FAILED))
    else ret (snd t)
  else ret unsafe_surface.

(** Lines 94-105. *)
Definition CreateSurface_Metal (instance : Instance) (window_info : WindowSystemInfo)
  (unsafe_surface : VkSurfaceKHR) : M VkSurfaceKHR :=
  let dld := Dispatch instance in
  if WindowSystemType_eqb (type window_info) MacOs then
    layer <- MetalLayer (render_surface window_info) ;;
    let metal_ci :=
      {| metal_sType := VK_STRUCTURE_TYPE_METAL_SURFACE_CREATE_INFO_EXT;
         metal_pNext := nullptr; metal_flags := 0; pLayer := layer |} in
    vkCreateMetalSurfaceEXT <-
      GetInstanceProcAddr dld (handle instance) "vkCreateMetalSurfaceEXT" ;;
    t <- absent_or_failed "vkCreateMetalSurfaceEXT" vkCreateMetalSurfaceEXT
           (handle instance) (MetalCreateInfo metal_ci) unsafe_surface ;;
    if fst t then
      (LOG_ERROR "Failed to initialize metal surface" ;;
       throw (vk_Exception VK_ERROR_INITIALIZATION_FAILED))
    else ret (snd t)
  else ret unsafe_surface.

(** Lines 108-120. *)
Definition CreateSurface_Xlib (instance : Instance) (window_info : WindowSystemInfo)
  (unsafe_surface : VkSurfaceKHR) : M VkSurfaceKHR :=
  let dld := Dispatch instance in
  if WindowSystemType_eqb (type window_info) X11 then
    let xlib_ci :=
      {| xlib_sType := VK_STRUCTURE_TYPE_XLIB_SURFACE_CREATE_INFO_KHR;
         xlib_pNext := nullptr; xlib_flags := 0;
         dpy := display_connection window_info;
         window := render_surface window_info |} in
    vkCreateXlibSurfaceKHR <-
      GetInstanceProcAddr dld (handle instance) "vkCreateXlibSurfaceKHR" ;;
    t <- absent_or_failed "vkCreateXlibSurfaceKHR" vkCreateXlibSurfaceKHR
           (handle instance) (XlibCreateInfo xlib_ci) unsafe_surface ;;
    if fst t then
      (LOG_ERROR "Failed to initialize Xlib surface" ;;
       throw (vk_Exception VK_ERROR_INITIALIZATION_FAILED))
    else ret (snd t)
  else ret unsafe_surface.

(** Lines 121-134. *)
Definition CreateSurface_Wayland (instance : Instance) (window_info : WindowSystemInfo)
  (unsafe_surface : VkSurfaceKHR) : M VkSurfaceKHR :=
  let dld := Dispatch instance in
  if WindowSystemType_eqb (type window_info) Wayland then
    let wayland_ci :=
      {| wayland_sType := VK_STRUCTURE_TYPE_WAYLAND_SURFACE_CREATE_INFO_KHR;
         wayland_pNext := nullptr; wayland_flags := 0;
         display := display_connection window_info;
         surface := render_surface window_info |} in
    vkCreateWaylandSurfaceKHR <-
      GetInstanceProcAddr dld (handle instance) "vkCreateWaylandSurfaceKHR" ;;
    t <- absent_or_failed "vkCreateWaylandSurfaceKHR" vkCreateWaylandSurfaceKHR
           (handle instance) (WaylandCreateInfo wayland_ci) unsafe_surface ;;
    if fst t then
      (LOG_ERROR "Failed to initialize Wayland surface" ;;
       throw (vk_Exception VK_ERROR_INITIALIZATION_FAILED))
    else ret (snd t)
  else ret unsafe_surface.

(** ** The dispatcher: [CreateSurface], lines 73-141 *)

(** Lines 77-135: [unsafe_surface] starts null and goes through the blocks
    the preprocessor keeps for the build. *)
Definition CreateSurface_builders (b : Build) (instance : Instance)
  (window_info : WindowSystemInfo) : M VkSurfaceKHR :=
  let unsafe_surface := nullptr in
  unsafe_surface <-
    (if _WIN32 b then CreateSurface_Win32 instance window_info unsafe_surface
     else ret unsafe_surface) ;;
  unsafe_surface <-
    (if __APPLE__ b then CreateSurface_Metal instance window_info unsafe_surface
     else ret unsafe_surface) ;;
  unsafe_surface <-
    (if negb (_WIN32 b) && negb (__APPLE__ b) then
       (unsafe_surface <- CreateSurface_Xlib instance window_info unsafe_surface ;;
        CreateSurface_Wayland instance window_info unsafe_surface)
     else ret unsafe_surface) ;;
  ret unsafe_surface.

Definition CreateSurface (b : Build) (instance : Instance) (emu_window : EmuWindow)
  : M SurfaceKHR :=
  let dld := Dispatch instance in
  let window_info := GetWindowInfo emu_window in
  unsafe_surface <- CreateSurface_builders b instance window_info ;;
  if unsafe_surface =? 0 then
    (LOG_ERROR "Presentation not supported on this platform" ;;
     throw (vk_Exception VK_ERROR_INITIALIZATION_FAILED))
  else
    ret {| surface_handle := unsafe_surface;
           surface_owner := handle instance;
           surface_dld := dld |}.

(** ** Reading a run *)

(** The external calls a computation adds to the world it starts in. *)
Definition trace {A} (c : M A) (w : World) : list Event :=
  skipn (length (calls w)) (calls (snd (c w))).

(** Names looked up through [vkGetInstanceProcAddr], in order. *)
Fixpoint resolved (l : list Event) : list string :=
  match l with
  | [] => []
  | Ev_vkGetInstanceProcAddr _ name :: l => name :: resolved l
  | _ :: l => resolved l
  end.

(** Surface constructors invoked, with the instance and record they got. *)
Fixpoint created (l : list Event) : list (string * VkInstance * CreateInfo) :=
  match l with
  | [] => []
  | Ev_vkCreateSurface name i ci _ :: l => (name, i, ci) :: created l
  | _ :: l => created l
  end.

(** Objective-C messages sent, in order. *)
Fixpoint messages (l : list Event) : list (Objc.id * Objc.SEL * list Objc.Arg) :=
  match l with
  | [] => []
  | Ev_objc_msgSend self op args :: l => (self, op, args) :: messages l
  | _ :: l => messages l
  end.

(** The constructor each builder asks the instance for, and the condition
    under which the preprocessor keeps that builder. *)
Definition entry_point (b : Build) (t : WindowSystemType) : option string :=
  match t with
  | Windows =>
      if _WIN32 b then Some "vkCreateWin32SurfaceKHR" else None
  | MacOs =>
      if __APPLE__ b then Some "vkCreateMetalSurfaceEXT" else None
  | X11 =>
      if negb (_WIN32 b) && negb (__APPLE__ b)
      then Some "vkCreateXlibSurfaceKHR" else None
  | Wayland =>
      if negb (_WIN32 b) && negb (__APPLE__ b)
      then Some "vkCreateWaylandSurfaceKHR" else None
  | Unsupported => None
  end.

(** A builder family is present in a build when some call makes it look its
    constructor up. *)
Definition family_compiled (b : Build) (t : WindowSystemType) : Prop :=
  exists instance window_info w,
    type window_info = t /\
    resolved (trace (CreateSurface b instance {| GetWindowInfo := window_info |}) w)
      <> [].

(** The failure every [throw] of the file raises. *)
Definition SurfaceInitializationFailed : Exception :=
  vk_Exception VK_ERROR_INITIALIZATION_FAILED.

(** Names of the surface constructors invoked, in order. *)
Definition constructed (l : list Event) : list string :=
  map (fun c => fst (fst c)) (created l).

(** What lines 48-51 leave of a runtime: the view asked to be layer-backed,
    then given the layer. *)
Definition attach_layer (rt : Objc.Runtime) (view new_layer : Objc.id) : Objc.Runtime :=
  snd (Objc.objc_msgSend
         (snd (Objc.objc_msgSend rt view "setWantsLayer:" [Objc.ArgBOOL true]))
         view "setLayer:" [Objc.ArgId new_layer]).

(** What lines 53-57 read: the main screen and its backing scale factor,
    with the zero answers of messages to [nil]. *)
Definition main_screen (rt : Objc.Runtime) : Objc.id :=
  if Objc.classes rt "NSScreen" =? 0 then Objc.nil else Objc.mainScreen rt.

Definition scale_factor (rt : Objc.Runtime) : float :=
  if main_screen rt =? 0 then 0%float
  else Objc.backingScaleFactor rt (main_screen rt).

Definition logged (msg : string) (w : World) : World :=
  {| runtime := runtime w; calls := calls w; log := log w ++ [msg] |}.

(** The shape the four builders share once their record is filled in: look
    the constructor up, call it if it is there, log and throw unless it was
    there and answered [VK_SUCCESS]. *)
Definition builder_outcome (name msg : string) (instance : Instance)
  (ci : CreateInfo) (unsafe_surface : VkSurfaceKHR) (w : World)
  : Outcome VkSurfaceKHR * World :=
  let i := handle instance in
  let w1 := record (Ev_vkGetInstanceProcAddr i name) w in
  match vkGetInstanceProcAddr (Dispatch instance) i name with
  | None => (Thrown SurfaceInitializationFailed, logged msg w1)
  | Some f =>
      let r := f i ci unsafe_surface in
      let w2 := record (Ev_vkCreateSurface name i ci (fst r)) w1 in
      if fst r =? VK_SUCCESS then (Returned (snd r), w2)
      else (Thrown SurfaceInitializationFailed, logged msg w2)
  end.

(** Lines 136-140 applied to what the builders left. *)
Definition checked (instance : Instance) (r : Outcome VkSurfaceKHR * World)
  : Outcome SurfaceKHR * World :=
  match r with
  | (Returned s, w') =>
      if s =? 0
      then (Thrown SurfaceInitializationFailed,
            logged "Presentation not supported on this platform" w')
      else (Returned {| surface_handle := s; surface_owner := handle instance;
                        surface_dld := Dispatch instance |}, w')
  | (Thrown e, w') => (Thrown e, w')
  end.

(** A whole call in which one builder runs, from the point where its record
    is filled in. *)
Definition builder_result (name msg : string) (instance : Instance)
  (ci : CreateInfo) (w1 : World) : Outcome SurfaceKHR * World :=
  checked instance (builder_outcome name msg instance ci nullptr w1).

(** The events a builder adds once its record is filled in. *)
Definition builder_events (name : string) (instance : Instance) (ci : CreateInfo)
  : list Event :=
  Ev_vkGetInstanceProcAddr (handle instance) name ::
  match vkGetInstanceProcAddr (Dispatch instance) (handle instance) name with
  | None => []
  | Some f =>
      [Ev_vkCreateSurface name (handle instance) ci
         (fst (f (handle instance) ci nullptr))]
  end.

(** The field values section 4.2 of the specification lists for the record
    of each builder; [layer] is what the adapter answered (Apple only). *)
Definition filled_as_specified (wi : WindowSystemInfo) (layer : Outcome ptr)
  (ci : CreateInfo) : Prop :=
  match type wi, ci with
  | Windows, Win32CreateInfo c =>
      win32_sType c = VK_STRUCTURE_TYPE_WIN32_SURFACE_CREATE_INFO_KHR /\
      win32_pNext c = nullptr /\ win32_flags c = 0 /\
      hinstance c = nullptr /\ hwnd c = render_surface wi
  | MacOs, MetalCreateInfo c =>
      metal_sType c = VK_STRUCTURE_TYPE_METAL_SURFACE_CREATE_INFO_EXT /\
      metal_pNext c = nullptr /\ metal_flags c = 0 /\
      layer = Returned (pLayer c)
  | X11, XlibCreateInfo c =>
      xlib_sType c = VK_STRUCTURE_TYPE_XLIB_SURFACE_CREATE_INFO_KHR /\
      xlib_pNext c = nullptr /\ xlib_flags c = 0 /\
      dpy c = display_connection wi /\ window c = render_surface wi
  | Wayland, WaylandCreateInfo c =>
      wayland_sType c = VK_STRUCTURE_TYPE_WAYLAND_SURFACE_CREATE_INFO_KHR /\
      wayland_pNext c = nullptr /\ wayland_flags c = 0 /\
      display c = display_connection wi /\ surface c = render_surface wi
  | _, _ => False
  end.

(** The value a computation returned, [d] if it threw. *)
Definition returned {A} (d : A) (o : Outcome A) : A :=
  match o with Returned a => a | Thrown _ => d end.

(** ** Sample worlds, instances and windows *)

Definition sample_runtime (new_layer screen : Objc.id) (scale : float) : Objc.Runtime :=
  {| Objc.classes := fun name =>
       if String.eqb name "CAMetalLayer" then 100
       else if String.eqb name "NSScreen" then 200 else 0;
     Objc.fresh_layer := new_layer;
     Objc.mainScreen := screen;
     Objc.backingScaleFactor := fun _ => scale;
     Objc.wantsLayer := fun _ => false;
     Objc.layer := fun _ => 0;
     Objc.contentsScale := fun _ => 1%float |}.

Definition sample_world (new_layer screen : Objc.id) (scale : float) : World :=
  {| runtime := sample_runtime new_layer screen scale; calls := []; log := [] |}.

(** A runtime in which no class is loaded. *)
Definition bare_world : World :=
  {| runtime :=
       {| Objc.classes := fun _ => Objc.nil;
          Objc.fresh_layer := 300;
          Objc.mainScreen := 400;
          Objc.backingScaleFactor := fun _ => 2%float;
          Objc.wantsLayer := fun _ => false;
          Objc.layer := fun _ => Objc.nil;
          Objc.contentsScale := fun _ => 1%float |};
     calls := []; log := [] |}.

(** An instance whose table knows the constructors in [names]; each of them
    answers [status] and stores [out]. *)
Definition sample_instance (names : list string) (status : VkResult)
  (out : VkSurfaceKHR) : Instance :=
  {| handle := 1;
     Dispatch :=
       {| vkGetInstanceProcAddr := fun _ name =>
            if existsb (String.eqb name) names
            then Some (fun _ _ _ => (status, out)) else None |} |}.

Definition sample_window (t : WindowSystemType) : EmuWindow :=
  {| GetWindowInfo := {| type := t; display_connection := 7; render_surface := 5 |} |}.

(** ** Reading a run: the log and the statuses *)

(** The lines a computation adds to the log of the world it starts in. *)
Definition emitted {A} (c : M A) (w : World) : list string :=
  skipn (length (log w)) (log (snd (c w))).

(** Statuses answered by the surface constructors invoked, in order. *)
Fixpoint statuses (l : list Event) : list VkResult :=
  match l with
  | [] => []
  | Ev_vkCreateSurface _ _ _ status :: l => status :: statuses l
  | _ :: l => statuses l
  end.

(** The external calls that go to the Objective-C runtime. *)
Definition is_objc (e : Event) : bool :=
  match e with
  | Ev_objc_getClass _ | Ev_objc_msgSend _ _ _ => true
  | _ => false
  end.

(** The line each builder logs before it throws (lines 88, 102, 117, 131). *)
Definition failure_line (t : WindowSystemType) : string :=
  match t with
  | Windows => "Failed to initialize Win32 surface"
  | MacOs => "Failed to initialize metal surface"
  | X11 => "Failed to initialize Xlib surface"
  | Wayland => "Failed to initialize Wayland surface"
  | Unsupported => ""
  end.

(** The line of the final test (line 137). *)
Definition not_supported_line : string :=
  "Presentation not supported on this platform".

(** Whether a call goes through [MetalLayer]: the Apple block is kept and
    the discriminant is [MacOs] (lines 93-95). *)
Definition calls_adapter (b : Build) (wi : WindowSystemInfo) : bool :=
  __APPLE__ b && WindowSystemType_eqb (type wi) MacOs.

(** The world in which the selected builder starts its lookup. *)
Definition world_at_lookup (wi : WindowSystemInfo) (w : World) : World :=
  if WindowSystemType_eqb (type wi) MacOs
  then snd (MetalLayer (render_surface wi) w) else w.

(** What a call in which one builder runs leaves to its caller, and the
    lines it logs from the lookup on: the builder's own line when the
    constructor is absent or rejects, the line of the final test when the
    constructor reports success and leaves the handle null. *)
Definition builder_value (name : string) (instance : Instance) (ci : CreateInfo)
  : Outcome SurfaceKHR :=
  match vkGetInstanceProcAddr (Dispatch instance) (handle instance) name with
  | None => Thrown SurfaceInitializationFailed
  | Some f =>
      let r := f (handle instance) ci nullptr in
      if (fst r =? VK_SUCCESS) && negb (snd r =? 0)
      then Returned {| surface_handle := snd r; surface_owner := handle instance;
                       surface_dld := Dispatch instance |}
      else Thrown SurfaceInitializationFailed
  end.

Definition builder_lines (name msg : string) (instance : Instance) (ci : CreateInfo)
  : list string :=
  match vkGetInstanceProcAddr (Dispatch instance) (handle instance) name with
  | None => [msg]
  | Some f =>
      let r := f (handle instance) ci nullptr in
      if fst r =? VK_SUCCESS
      then (if snd r =? 0 then [not_supported_line] else [])
      else [msg]
  end.

(** * Properties *)

(** ** Lists of events *)

Lemma skipn_length_app {A} (l l' : list A) : skipn (length l) (l ++ l') = l'.
Proof. induction l as [|a l IH]; simpl; auto. Qed.

Lemma resolved_app l l' : resolved (l ++ l') = resolved l ++ resolved l'.
Proof.
  induction l as [|e l IH]; simpl; auto.
  destruct e; simpl; rewrite IH; reflexivity.
Qed.

Lemma created_app l l' : created (l ++ l') = created l ++ created l'.
Proof.
  induction l as [|e l IH]; simpl; auto.
  destruct e; simpl; rewrite IH; reflexivity.
Qed.

Lemma messages_app l l' : messages (l ++ l') = messages l ++ messages l'.
Proof.
  induction l as [|e l IH]; simpl; auto.
  destruct e; simpl; rewrite IH; reflexivity.
Qed.

(** A computation that only appends has the appended events as its trace. *)
Lemma trace_appended {A} (c : M A) (w : World) (evs : list Event) :
  calls (snd (c w)) = calls w ++ evs -> trace c w = evs.
Proof. intros H. unfold trace. rewrite H. apply skipn_length_app. Qed.

(** ** The Objective-C runtime *)

Lemma msgSend_nil rt op args :
  Objc.objc_msgSend rt Objc.nil op args = (Objc.RetVoid, rt).
Proof. reflexivity. Qed.

(** No message changes what class lookup, layer instantiation and the screen
    queries answer. *)
Lemma msgSend_frame rt self op args :
  let rt' := snd (Objc.objc_msgSend rt self op args) in
  Objc.classes rt' = Objc.classes rt /\
  Objc.fresh_layer rt' = Objc.fresh_layer rt /\
  Objc.mainScreen rt' = Objc.mainScreen rt /\
  Objc.backingScaleFactor rt' = Objc.backingScaleFactor rt.
Proof.
  unfold Objc.objc_msgSend.
  repeat match goal with
         | |- context [if ?c then _ else _] => destruct c
         | |- context [match ?a with [] => _ | _ :: _ => _ end] => destruct a
         | |- context [match ?a with Objc.ArgBOOL _ => _ | _ => _ end] => destruct a
         end; simpl; auto.
Qed.

(** The three queries leave the runtime as it is. *)
Lemma msgSend_mainScreen rt self :
  Objc.objc_msgSend rt self "mainScreen" [] =
    (if self =? 0 then Objc.RetVoid
     else Objc.RetId (if self =? Objc.classes rt "NSScreen"
                      then Objc.mainScreen rt else Objc.nil), rt).
Proof. unfold Objc.objc_msgSend, Objc.nil. destruct (self =? 0); reflexivity. Qed.

Lemma msgSend_backingScaleFactor rt self :
  Objc.objc_msgSend rt self "backingScaleFactor" [] =
    (if self =? 0 then Objc.RetVoid
     else Objc.RetDouble (Objc.backingScaleFactor rt self), rt).
Proof. unfold Objc.objc_msgSend, Objc.nil. destruct (self =? 0); reflexivity. Qed.

Lemma msgSend_setContentsScale rt self d :
  self <> 0 ->
  Objc.objc_msgSend rt self "setContentsScale:" [Objc.ArgDouble d] =
    (Objc.RetVoid, Objc.setContentsScale rt self d).
Proof.
  intros H. apply Z.eqb_neq in H.
  unfold Objc.objc_msgSend, Objc.nil. rewrite H. reflexivity.
Qed.

Lemma upd_same {V} (f : Objc.id -> V) o v : Objc.upd f o v o = v.
Proof. unfold Objc.upd. rewrite Z.eqb_refl. reflexivity. Qed.

(** ** Running the monad one call at a time *)

Section Steps.

Context {B : Type}.

Lemma bind_ret {A} (a : A) (k : A -> M B) w : bind (ret a) k w = k a w.
Proof. reflexivity. Qed.

Lemma bind_throw {A} e (k : A -> M B) w : bind (throw e) k w = (Thrown e, w).
Proof. reflexivity. Qed.

Lemma bind_LOG_ERROR msg (k : unit -> M B) w :
  bind (LOG_ERROR msg) k w =
    k tt {| runtime := runtime w; calls := calls w; log := log w ++ [msg] |}.
Proof. reflexivity. Qed.

Lemma bind_objc_getClass name (k : Objc.Class -> M B) w :
  bind (objc_getClass name) k w =
    k (Objc.classes (runtime w) name)
      {| runtime := runtime w; calls := calls w ++ [Ev_objc_getClass name];
         log := log w |}.
Proof. reflexivity. Qed.

Lemma bind_objc_msgSend self op args (k : Objc.Ret -> M B) w :
  bind (objc_msgSend self op args) k w =
    k (fst (Objc.objc_msgSend (runtime w) self op args))
      {| runtime := snd (Objc.objc_msgSend (runtime w) self op args);
         calls := calls w ++ [Ev_objc_msgSend self op args];
         log := log w |}.
Proof.
  unfold bind, objc_msgSend.
  destruct (Objc.objc_msgSend (runtime w) self op args); reflexivity.
Qed.

Lemma bind_GetInstanceProcAddr dld i name
  (k : option PFN_vkCreateSurface -> M B) w :
  bind (GetInstanceProcAddr dld i name) k w =
    k (vkGetInstanceProcAddr dld i name)
      {| runtime := runtime w;
         calls := calls w ++ [Ev_vkGetInstanceProcAddr i name];
         log := log w |}.
Proof. reflexivity. Qed.

Lemma bind_invoke name f i ci s (k : VkResult * VkSurfaceKHR -> M B) w :
  bind (invoke name f i ci s) k w =
    k (f i ci s)
      {| runtime := runtime w;
         calls := calls w ++ [Ev_vkCreateSurface name i ci (fst (f i ci s))];
         log := log w |}.
Proof. reflexivity. Qed.

End Steps.

Ltac run1 :=
  first [ rewrite bind_ret | rewrite bind_throw | rewrite bind_LOG_ERROR
        | rewrite bind_objc_getClass | rewrite bind_objc_msgSend
        | rewrite bind_GetInstanceProcAddr | rewrite bind_invoke ];
  cbv beta; cbn [runtime calls log].

Ltac run := repeat run1; rewrite <- ?app_assoc; cbn [app].

(** ** Runs of [MetalLayer] *)

Lemma MetalLayer_class_unavailable view w :
  Objc.classes (runtime w) "CAMetalLayer" = 0 ->
  MetalLayer view w =
    (Returned nullptr,
     {| runtime := runtime w;
        calls := calls w ++ [Ev_objc_getClass "CAMetalLayer"];
        log := log w ++ ["Failed to get CAMetalLayer class."] |}).
Proof.
  intros H. unfold MetalLayer. run1.
  rewrite H. cbn [Z.eqb]. run. reflexivity.
Qed.

Lemma layer_instantiated rt :
  Objc.classes rt "CAMetalLayer" <> 0 ->
  Objc.objc_msgSend rt (Objc.classes rt "CAMetalLayer") (Objc.sel_getUid "layer") [] =
    (Objc.RetId (Objc.fresh_layer rt), rt).
Proof.
  intros Hc. apply Z.eqb_neq in Hc.
  unfold Objc.objc_msgSend, Objc.nil. rewrite Hc. cbn.
  rewrite Z.eqb_refl. reflexivity.
Qed.

Lemma MetalLayer_no_layer view w :
  Objc.classes (runtime w) "CAMetalLayer" <> 0 ->
  Objc.fresh_layer (runtime w) = 0 ->
  MetalLayer view w =
    (Returned nullptr,
     {| runtime := runtime w;
        calls := calls w ++ [Ev_objc_getClass "CAMetalLayer";
                             Ev_objc_getClass "CAMetalLayer";
                             Ev_objc_msgSend (Objc.classes (runtime w) "CAMetalLayer")
                               "layer" []];
        log := log w ++ ["Failed to create Metal layer."] |}).
Proof.
  intros Hc Hl. unfold MetalLayer. run1.
  rewrite (proj2 (Z.eqb_neq _ _) Hc). run1. run1.
  rewrite (layer_instantiated _ Hc). cbn [fst snd Objc.as_id].
  rewrite Hl. cbn [Z.eqb]. run. reflexivity.
Qed.

Lemma attach_layer_frame rt view l :
  Objc.classes (attach_layer rt view l) = Objc.classes rt /\
  Objc.mainScreen (attach_layer rt view l) = Objc.mainScreen rt /\
  Objc.backingScaleFactor (attach_layer rt view l) = Objc.backingScaleFactor rt.
Proof.
  unfold attach_layer.
  destruct (msgSend_frame rt view "setWantsLayer:" [Objc.ArgBOOL true])
    as (H1 & _ & H2 & H3).
  destruct (msgSend_frame
              (snd (Objc.objc_msgSend rt view "setWantsLayer:" [Objc.ArgBOOL true]))
              view "setLayer:" [Objc.ArgId l]) as (H4 & _ & H5 & H6).
  cbv zeta in *. rewrite H4, H5, H6, H1, H2, H3. auto.
Qed.

Lemma MetalLayer_layer_created view w :
  Objc.classes (runtime w) "CAMetalLayer" <> 0 ->
  Objc.fresh_layer (runtime w) <> 0 ->
  MetalLayer view w =
    (Returned (Objc.fresh_layer (runtime w)),
     {| runtime :=
          Objc.setContentsScale
            (attach_layer (runtime w) view (Objc.fresh_layer (runtime w)))
            (Objc.fresh_layer (runtime w)) (scale_factor (runtime w));
        calls :=
          calls w ++
            [Ev_objc_getClass "CAMetalLayer";
             Ev_objc_getClass "CAMetalLayer";
             Ev_objc_msgSend (Objc.classes (runtime w) "CAMetalLayer") "layer" [];
             Ev_objc_msgSend view "setWantsLayer:" [Objc.ArgBOOL true];
             Ev_objc_msgSend view "setLayer:" [Objc.ArgId (Objc.fresh_layer (runtime w))];
             Ev_objc_getClass "NSScreen";
             Ev_objc_msgSend (Objc.classes (runtime w) "NSScreen") "mainScreen" [];
             Ev_objc_msgSend (main_screen (runtime w)) "backingScaleFactor" [];
             Ev_objc_msgSend (Objc.fresh_layer (runtime w)) "setContentsScale:"
               [Objc.ArgDouble (scale_factor (runtime w))]];
        log := log w |}).
Proof.
  intros Hc Hl. unfold MetalLayer. run1.
  rewrite (proj2 (Z.eqb_neq _ _) Hc). run1. run1.
  rewrite (layer_instantiated _ Hc). cbn [fst snd Objc.as_id].
  rewrite (proj2 (Z.eqb_neq _ _) Hl). run.
  unfold ret, Objc.sel_getUid, Objc.YES.
  fold (attach_layer (runtime w) view (Objc.fresh_layer (runtime w))).
  destruct (attach_layer_frame (runtime w) view (Objc.fresh_layer (runtime w)))
    as (Hcl & Hms & Hbs).
  rewrite msgSend_mainScreen. cbn [fst snd].
  rewrite !Hcl, Z.eqb_refl, Hms.
  replace (Objc.as_id _) with (main_screen (runtime w))
    by (unfold main_screen; destruct (Objc.classes (runtime w) "NSScreen" =? 0);
        reflexivity).
  rewrite msgSend_backingScaleFactor. cbn [fst snd]. rewrite Hbs.
  replace (Objc.as_double _) with (scale_factor (runtime w))
    by (unfold scale_factor; destruct (main_screen (runtime w) =? 0); reflexivity).
  rewrite msgSend_setContentsScale by assumption. reflexivity.
Qed.

(** Whatever happens, [MetalLayer] returns (it never throws), touches no
    Vulkan entry point and only appends to the call history. *)
Lemma MetalLayer_returns view w :
  exists l evs,
    fst (MetalLayer view w) = Returned l /\
    calls (snd (MetalLayer view w)) = calls w ++ evs /\
    resolved evs = [] /\ created evs = [].
Proof.
  destruct (Z.eq_dec (Objc.classes (runtime w) "CAMetalLayer") 0) as [Hc|Hc].
  - rewrite (MetalLayer_class_unavailable view w Hc).
    do 2 eexists. cbn [fst snd calls]. repeat split.
  - destruct (Z.eq_dec (Objc.fresh_layer (runtime w)) 0) as [Hl|Hl].
    + rewrite (MetalLayer_no_layer view w Hc Hl).
      do 2 eexists. cbn [fst snd calls]. repeat split.
    + rewrite (MetalLayer_layer_created view w Hc Hl).
      do 2 eexists. cbn [fst snd calls]. repeat split.
Qed.

(** ** The adapter: claims C7, C9, C10 *)

(** C9.  When the adapter fails -- the CAMetalLayer class is not available,
    or instantiating a layer answers no object -- it returns null and the
    Objective-C runtime state is exactly what it was, so in particular the
    [wantsLayer] and [layer] properties of the view are unchanged; the only
    message that may have been sent is [layer] to the class object, never
    [setWantsLayer:] or [setLayer:] to the view. *)
Theorem MetalLayer_failure_leaves_view_untouched (view : ptr) (w : World) :
  Objc.classes (runtime w) "CAMetalLayer" = Objc.nil \/
  Objc.fresh_layer (runtime w) = Objc.nil ->
  fst (MetalLayer view w) = Returned nullptr /\
  runtime (snd (MetalLayer view w)) = runtime w /\
  messages (trace (MetalLayer view) w) =
    (if Objc.classes (runtime w) "CAMetalLayer" =? 0 then []
     else [(Objc.classes (runtime w) "CAMetalLayer", "layer", [])]).
Proof.
  unfold Objc.nil. intros H.
  destruct (Z.eq_dec (Objc.classes (runtime w) "CAMetalLayer") 0) as [Hc|Hc].
  - pose proof (MetalLayer_class_unavailable view w Hc) as E. cbv zeta in E.
    rewrite Hc. cbn [Z.eqb].
    rewrite (trace_appended _ _ [Ev_objc_getClass "CAMetalLayer"])
      by (rewrite E; reflexivity).
    rewrite E. repeat split.
  - destruct H as [H|H]; [contradiction|].
    pose proof (MetalLayer_no_layer view w Hc H) as E. cbv zeta in E.
    rewrite (proj2 (Z.eqb_neq _ _) Hc).
    erewrite trace_appended by (rewrite E; reflexivity).
    rewrite E. repeat split.
Qed.

Lemma MetalLayer_failure_leaves_view_untouched_witness :
  (fst (MetalLayer 5 (sample_world 0 400 2%float)) = Returned nullptr /\
   runtime (snd (MetalLayer 5 (sample_world 0 400 2%float))) =
     sample_runtime 0 400 2%float /\
   messages (trace (MetalLayer 5) (sample_world 0 400 2%float)) =
     [(100, "layer", [])]) /\
  (fst (MetalLayer 5 bare_world) = Returned nullptr /\
   runtime (snd (MetalLayer 5 bare_world)) = runtime bare_world /\
   messages (trace (MetalLayer 5) bare_world) = []).
Proof.
  split.
  - apply (MetalLayer_failure_leaves_view_untouched 5 (sample_world 0 400 2%float)).
    right. reflexivity.
  - apply (MetalLayer_failure_leaves_view_untouched 5 bare_world).
    left. reflexivity.
Defined.

(** C7.  When the class is available and a layer is instantiated, and the
    main screen exists, the adapter returns that layer, and the layer's
    contents scale in the resulting runtime is the backing scale factor of
    the main screen; the value is handed over by a [setContentsScale:]
    message to the layer. *)
Theorem MetalLayer_propagates_scale (view : ptr) (w : World) (scale : float) :
  Objc.classes (runtime w) "CAMetalLayer" <> Objc.nil ->
  Objc.fresh_layer (runtime w) <> Objc.nil ->
  Objc.classes (runtime w) "NSScreen" <> Objc.nil ->
  Objc.mainScreen (runtime w) <> Objc.nil ->
  Objc.backingScaleFactor (runtime w) (Objc.mainScreen (runtime w)) = scale ->
  fst (MetalLayer view w) = Returned (Objc.fresh_layer (runtime w)) /\
  Objc.contentsScale (runtime (snd (MetalLayer view w)))
    (Objc.fresh_layer (runtime w)) = scale /\
  In (Objc.fresh_layer (runtime w), "setContentsScale:", [Objc.ArgDouble scale])
     (messages (trace (MetalLayer view) w)).
Proof.
  unfold Objc.nil. intros Hc Hl Hs Hm Hf.
  pose proof (MetalLayer_layer_created view w Hc Hl) as E. cbv zeta in E.
  unfold scale_factor, main_screen in E.
  rewrite (proj2 (Z.eqb_neq _ _) Hs) in E.
  rewrite (proj2 (Z.eqb_neq _ _) Hm), Hf in E.
  erewrite trace_appended by (rewrite E; reflexivity).
  rewrite E. cbn [fst snd runtime Objc.setContentsScale Objc.contentsScale].
  rewrite upd_same. repeat split.
  cbn [messages]. do 5 right. left. reflexivity.
Qed.

Lemma MetalLayer_propagates_scale_witness :
  fst (MetalLayer 5 (sample_world 300 400 2%float)) = Returned 300 /\
  Objc.contentsScale (runtime (snd (MetalLayer 5 (sample_world 300 400 2%float))))
    300 = 2%float /\
  In (300, "setContentsScale:", [Objc.ArgDouble 2%float])
     (messages (trace (MetalLayer 5) (sample_world 300 400 2%float))).
Proof.
  apply (MetalLayer_propagates_scale 5 (sample_world 300 400 2%float) 2%float);
    try reflexivity; cbn; unfold Objc.nil; lia.
Defined.

(** C10.  Once the class is available and a layer is instantiated, the
    adapter returns that (non-null) layer whatever the screen queries answer:
    nothing after the instantiation test can make it fail.  The contents
    scale it stores is the main screen's backing scale factor, or the zero a
    message to [nil] answers when the NSScreen class or the main screen is
    absent. *)
Theorem MetalLayer_returns_layer_without_screen (view : ptr) (w : World) :
  Objc.classes (runtime w) "CAMetalLayer" <> Objc.nil ->
  Objc.fresh_layer (runtime w) <> Objc.nil ->
  fst (MetalLayer view w) = Returned (Objc.fresh_layer (runtime w)) /\
  Objc.fresh_layer (runtime w) <> nullptr /\
  Objc.contentsScale (runtime (snd (MetalLayer view w)))
    (Objc.fresh_layer (runtime w)) =
    (if (Objc.classes (runtime w) "NSScreen" =? 0)
        || (Objc.mainScreen (runtime w) =? 0)
     then 0%float
     else Objc.backingScaleFactor (runtime w) (Objc.mainScreen (runtime w))).
Proof.
  unfold Objc.nil. intros Hc Hl.
  pose proof (MetalLayer_layer_created view w Hc Hl) as E. cbv zeta in E.
  rewrite E. cbn [fst snd runtime Objc.setContentsScale Objc.contentsScale].
  rewrite upd_same. repeat split; try assumption.
  unfold scale_factor, main_screen.
  destruct (Objc.classes (runtime w) "NSScreen" =? 0); cbn [orb]; [reflexivity|].
  destruct (Objc.mainScreen (runtime w) =? 0); reflexivity.
Qed.

Lemma MetalLayer_returns_layer_without_screen_witness :
  fst (MetalLayer 5 (sample_world 300 0 2%float)) = Returned 300 /\
  300 <> nullptr /\
  Objc.contentsScale (runtime (snd (MetalLayer 5 (sample_world 300 0 2%float))))
    300 = 0%float.
Proof.
  apply (MetalLayer_returns_layer_without_screen 5 (sample_world 300 0 2%float));
    cbn; unfold Objc.nil; lia.
Defined.

(** ** Runs of the builders *)

Lemma builder_tail name msg pfn i ci s w :
  bind (absent_or_failed name pfn i ci s)
       (fun t => if fst t
                 then (LOG_ERROR msg ;;
                       throw (vk_Exception VK_ERROR_INITIALIZATION_FAILED))
                 else ret (snd t)) w =
    match pfn with
    | None => (Thrown SurfaceInitializationFailed, logged msg w)
    | Some f =>
        let r := f i ci s in
        let w2 := record (Ev_vkCreateSurface name i ci (fst r)) w in
        if fst r =? VK_SUCCESS then (Returned (snd r), w2)
        else (Thrown SurfaceInitializationFailed, logged msg w2)
    end.
Proof.
  destruct pfn as [f|]; unfold absent_or_failed.
  - unfold bind at 1. rewrite bind_invoke. unfold ret at 1. cbn [fst snd].
    cbv zeta. destruct (fst (f i ci s) =? VK_SUCCESS); cbn [negb]; reflexivity.
  - rewrite bind_ret. cbn [fst]. reflexivity.
Qed.

Lemma CreateSurface_Win32_run instance wi s w :
  type wi = Windows ->
  CreateSurface_Win32 instance wi s w =
    builder_outcome "vkCreateWin32SurfaceKHR" "Failed to initialize Win32 surface"
      instance
      (Win32CreateInfo
         {| win32_sType := VK_STRUCTURE_TYPE_WIN32_SURFACE_CREATE_INFO_KHR;
            win32_pNext := nullptr; win32_flags := 0; hinstance := nullptr;
            hwnd := render_surface wi |}) s w.
Proof.
  intros H. unfold CreateSurface_Win32. rewrite H. cbn [WindowSystemType_eqb].
  cbv zeta. rewrite bind_GetInstanceProcAddr, builder_tail. reflexivity.
Qed.

Lemma CreateSurface_Xlib_run instance wi s w :
  type wi = X11 ->
  CreateSurface_Xlib instance wi s w =
    builder_outcome "vkCreateXlibSurfaceKHR" "Failed to initialize Xlib surface"
      instance
      (XlibCreateInfo
         {| xlib_sType := VK_STRUCTURE_TYPE_XLIB_SURFACE_CREATE_INFO_KHR;
            xlib_pNext := nullptr; xlib_flags := 0;
            dpy := display_connection wi; window := render_surface wi |}) s w.
Proof.
  intros H. unfold CreateSurface_Xlib. rewrite H. cbn [WindowSystemType_eqb].
  cbv zeta. rewrite bind_GetInstanceProcAddr, builder_tail. reflexivity.
Qed.

Lemma CreateSurface_Wayland_run instance wi s w :
  type wi = Wayland ->
  CreateSurface_Wayland instance wi s w =
    builder_outcome "vkCreateWaylandSurfaceKHR" "Failed to initialize Wayland surface"
      instance
      (WaylandCreateInfo
         {| wayland_sType := VK_STRUCTURE_TYPE_WAYLAND_SURFACE_CREATE_INFO_KHR;
            wayland_pNext := nullptr; wayland_flags := 0;
            display := display_connection wi; surface := render_surface wi |}) s w.
Proof.
  intros H. unfold CreateSurface_Wayland. rewrite H. cbn [WindowSystemType_eqb].
  cbv zeta. rewrite bind_GetInstanceProcAddr, builder_tail. reflexivity.
Qed.

Lemma CreateSurface_Metal_run instance wi s w :
  type wi = MacOs ->
  CreateSurface_Metal instance wi s w =
    builder_outcome "vkCreateMetalSurfaceEXT" "Failed to initialize metal surface"
      instance
      (MetalCreateInfo
         {| metal_sType := VK_STRUCTURE_TYPE_METAL_SURFACE_CREATE_INFO_EXT;
            metal_pNext := nullptr; metal_flags := 0;
            pLayer := returned nullptr (fst (MetalLayer (render_surface wi) w)) |})
      s (snd (MetalLayer (render_surface wi) w)).
Proof.
  intros H. unfold CreateSurface_Metal. rewrite H. cbn [WindowSystemType_eqb].
  cbv zeta. unfold bind at 1.
  destruct (MetalLayer_returns (render_surface wi) w) as (l & evs & Hl & _).
  destruct (MetalLayer (render_surface wi) w) as [o w1]. cbn [fst snd] in *.
  subst o. cbn [returned].
  rewrite bind_GetInstanceProcAddr, builder_tail. reflexivity.
Qed.

(** A builder whose discriminant does not match passes the handle on. *)
Lemma CreateSurface_Win32_skip instance wi s w :
  type wi <> Windows -> CreateSurface_Win32 instance wi s w = (Returned s, w).
Proof.
  intros H. unfold CreateSurface_Win32.
  destruct (type wi); try contradiction; reflexivity.
Qed.

Lemma CreateSurface_Metal_skip instance wi s w :
  type wi <> MacOs -> CreateSurface_Metal instance wi s w = (Returned s, w).
Proof.
  intros H. unfold CreateSurface_Metal.
  destruct (type wi); try contradiction; reflexivity.
Qed.

Lemma CreateSurface_Xlib_skip instance wi s w :
  type wi <> X11 -> CreateSurface_Xlib instance wi s w = (Returned s, w).
Proof.
  intros H. unfold CreateSurface_Xlib.
  destruct (type wi); try contradiction; reflexivity.
Qed.

Lemma CreateSurface_Wayland_skip instance wi s w :
  type wi <> Wayland -> CreateSurface_Wayland instance wi s w = (Returned s, w).
Proof.
  intros H. unfold CreateSurface_Wayland.
  destruct (type wi); try contradiction; reflexivity.
Qed.

Lemma bind_run {A B} (c : M A) (k : A -> M B) w o w' :
  c w = (o, w') ->
  bind c k w = match o with
               | Returned a => k a w'
               | Thrown e => (Thrown e, w')
               end.
Proof. intros H. unfold bind. rewrite H. reflexivity. Qed.

Lemma bind_assoc {A B C} (c : M A) (k1 : A -> M B) (k2 : B -> M C) w :
  bind (bind c k1) k2 w = bind c (fun a => bind (k1 a) k2) w.
Proof. unfold bind. destruct (c w) as [[a|e] w']; reflexivity. Qed.

Ltac skip_block H :=
  first [ rewrite (bind_run _ _ _ _ _ (CreateSurface_Win32_skip _ _ _ _
                     ltac:(rewrite H; discriminate)))
        | rewrite (bind_run _ _ _ _ _ (CreateSurface_Metal_skip _ _ _ _
                     ltac:(rewrite H; discriminate)))
        | rewrite (bind_run _ _ _ _ _ (CreateSurface_Xlib_skip _ _ _ _
                     ltac:(rewrite H; discriminate)))
        | rewrite (bind_run _ _ _ _ _ (CreateSurface_Wayland_skip _ _ _ _
                     ltac:(rewrite H; discriminate)))
        | rewrite bind_ret
        | rewrite bind_assoc ].

Ltac run_block H :=
  unfold bind at 1;
  first [ rewrite CreateSurface_Win32_run by exact H
        | rewrite CreateSurface_Metal_run by exact H
        | rewrite CreateSurface_Xlib_run by exact H
        | rewrite CreateSurface_Wayland_run by exact H ].

(** The whole chain of blocks: the one builder kept for the build whose
    discriminant matches runs on a null handle; otherwise nothing happens. *)
Lemma CreateSurface_builders_run b instance wi w :
  CreateSurface_builders b instance wi w =
    match type wi, entry_point b (type wi) with
    | Windows, Some name =>
        builder_outcome name "Failed to initialize Win32 surface" instance
          (Win32CreateInfo
             {| win32_sType := VK_STRUCTURE_TYPE_WIN32_SURFACE_CREATE_INFO_KHR;
                win32_pNext := nullptr; win32_flags := 0; hinstance := nullptr;
                hwnd := render_surface wi |}) nullptr w
    | MacOs, Some name =>
        builder_outcome name "Failed to initialize metal surface" instance
          (MetalCreateInfo
             {| metal_sType := VK_STRUCTURE_TYPE_METAL_SURFACE_CREATE_INFO_EXT;
                metal_pNext := nullptr; metal_flags := 0;
                pLayer := returned nullptr (fst (MetalLayer (render_surface wi) w)) |})
          nullptr (snd (MetalLayer (render_surface wi) w))
    | X11, Some name =>
        builder_outcome name "Failed to initialize Xlib surface" instance
          (XlibCreateInfo
             {| xlib_sType := VK_STRUCTURE_TYPE_XLIB_SURFACE_CREATE_INFO_KHR;
                xlib_pNext := nullptr; xlib_flags := 0;
                dpy := display_connection wi; window := render_surface wi |})
          nullptr w
    | Wayland, Some name =>
        builder_outcome name "Failed to initialize Wayland surface" instance
          (WaylandCreateInfo
             {| wayland_sType := VK_STRUCTURE_TYPE_WAYLAND_SURFACE_CREATE_INFO_KHR;
                wayland_pNext := nullptr; wayland_flags := 0;
                display := display_connection wi; surface := render_surface wi |})
          nullptr w
    | _, _ => (Returned nullptr, w)
    end.
Proof.
  unfold CreateSurface_builders, entry_point.
  destruct b as [[|] [|]]; cbn [_WIN32 __APPLE__ negb andb]; cbv zeta;
    destruct (type wi) eqn:Ht;
    repeat skip_block Ht; try reflexivity.
  all: run_block Ht;
    match goal with
    | |- context [builder_outcome ?n ?m ?i ?c ?s ?x] =>
        destruct (builder_outcome n m i c s x) as [[s'|e'] w']
    end; repeat skip_block Ht; reflexivity.
Qed.


(** ** Runs of [CreateSurface] *)

Lemma CreateSurface_run b instance emu_window w :
  CreateSurface b instance emu_window w =
    checked instance (CreateSurface_builders b instance (GetWindowInfo emu_window) w).
Proof.
  unfold CreateSurface, checked, bind. cbv zeta.
  destruct (CreateSurface_builders b instance (GetWindowInfo emu_window) w)
    as [[s|e] w']; [destruct (s =? 0)|]; reflexivity.
Qed.

Section BuilderOutcome.

Variables (name msg : string) (instance : Instance) (ci : CreateInfo) (w1 : World).

Lemma outcome_surface_or_failure :
  (exists s, fst (builder_result name msg instance ci w1) = Returned s /\ surface_handle s <> nullptr /\
             surface_owner s = handle instance /\
             surface_dld s = Dispatch instance) \/
  fst (builder_result name msg instance ci w1) = Thrown SurfaceInitializationFailed.
Proof.
  unfold builder_result, builder_outcome, checked. cbv zeta.
  destruct (vkGetInstanceProcAddr _ _ _) as [f|]; [|right; reflexivity].
  destruct (fst (f _ _ _) =? VK_SUCCESS); [|right; reflexivity].
  destruct (snd (f _ _ _) =? 0) eqn:E; [right; reflexivity|left].
  eexists. cbn [fst surface_handle surface_owner surface_dld].
  repeat split. apply Z.eqb_neq. exact E.
Qed.

Lemma outcome_calls :
  calls (snd (builder_result name msg instance ci w1)) = calls w1 ++ builder_events name instance ci.
Proof.
  unfold builder_result, builder_outcome, builder_events, checked, record, logged. cbv zeta.
  destruct (vkGetInstanceProcAddr _ _ _) as [f|]; [|reflexivity].
  destruct (fst (f _ _ _) =? VK_SUCCESS); [destruct (snd (f _ _ _) =? 0)|];
    cbn [snd calls]; rewrite <- app_assoc; reflexivity.
Qed.

Lemma outcome_runtime : runtime (snd (builder_result name msg instance ci w1)) = runtime w1.
Proof.
  unfold builder_result, builder_outcome, checked, record, logged. cbv zeta.
  destruct (vkGetInstanceProcAddr _ _ _) as [f|]; [|reflexivity].
  destruct (fst (f _ _ _) =? VK_SUCCESS); [destruct (snd (f _ _ _) =? 0)|];
    reflexivity.
Qed.

Lemma outcome_absent :
  vkGetInstanceProcAddr (Dispatch instance) (handle instance) name = None ->
  fst (builder_result name msg instance ci w1) = Thrown SurfaceInitializationFailed.
Proof.
  intros H. unfold builder_result, builder_outcome, checked. cbv zeta. rewrite H. reflexivity.
Qed.

Lemma outcome_rejected f :
  vkGetInstanceProcAddr (Dispatch instance) (handle instance) name = Some f ->
  fst (f (handle instance) ci nullptr) <> VK_SUCCESS ->
  fst (builder_result name msg instance ci w1) = Thrown SurfaceInitializationFailed.
Proof.
  intros H Hr. apply Z.eqb_neq in Hr.
  unfold builder_result, builder_outcome, checked. cbv zeta. rewrite H, Hr. reflexivity.
Qed.

End BuilderOutcome.

Lemma resolved_builder_events name instance ci :
  resolved (builder_events name instance ci) = [name].
Proof.
  unfold builder_events. destruct (vkGetInstanceProcAddr _ _ _); reflexivity.
Qed.

Lemma created_builder_events name instance ci :
  created (builder_events name instance ci) =
    match vkGetInstanceProcAddr (Dispatch instance) (handle instance) name with
    | None => []
    | Some _ => [(name, handle instance, ci)]
    end.
Proof.
  unfold builder_events. destruct (vkGetInstanceProcAddr _ _ _); reflexivity.
Qed.

(** No builder for the discriminant: only the final test runs. *)
Lemma CreateSurface_no_builder_run b instance emu_window w :
  entry_point b (type (GetWindowInfo emu_window)) = None ->
  CreateSurface_builders b instance (GetWindowInfo emu_window) w =
    (Returned nullptr, w) /\
  CreateSurface b instance emu_window w =
    (Thrown SurfaceInitializationFailed,
     logged "Presentation not supported on this platform" w).
Proof.
  intros H. rewrite CreateSurface_run, CreateSurface_builders_run, H.
  destruct (type (GetWindowInfo emu_window)); split; reflexivity.
Qed.

(** A builder for the discriminant: the run is the adapter's events, if any,
    followed by that builder's outcome on its record. *)
Lemma CreateSurface_builder_run b instance emu_window w name :
  entry_point b (type (GetWindowInfo emu_window)) = Some name ->
  exists ci msg evs w1,
    calls w1 = calls w ++ evs /\ resolved evs = [] /\ created evs = [] /\
    filled_as_specified (GetWindowInfo emu_window)
      (fst (MetalLayer (render_surface (GetWindowInfo emu_window)) w)) ci /\
    CreateSurface b instance emu_window w = builder_result name msg instance ci w1.
Proof.
  intros H. rewrite CreateSurface_run, CreateSurface_builders_run, H.
  unfold filled_as_specified.
  destruct (type (GetWindowInfo emu_window)) eqn:Ht; try discriminate.
  2: { destruct (MetalLayer_returns (render_surface (GetWindowInfo emu_window)) w)
         as (l & evs & Hl & Hc & Hr & Hk).
       do 2 eexists. exists evs. eexists. repeat split; eauto.
       cbn iota beta. cbn [pLayer metal_sType metal_pNext metal_flags].
       rewrite Hl. repeat split. }
  all: do 2 eexists; exists []; exists w; rewrite app_nil_r; repeat split.
  all: cbn; repeat split.
Qed.

Lemma CreateSurface_builder_trace b instance emu_window w name :
  entry_point b (type (GetWindowInfo emu_window)) = Some name ->
  exists ci msg evs w1,
    resolved evs = [] /\ created evs = [] /\
    filled_as_specified (GetWindowInfo emu_window)
      (fst (MetalLayer (render_surface (GetWindowInfo emu_window)) w)) ci /\
    CreateSurface b instance emu_window w = builder_result name msg instance ci w1 /\
    trace (CreateSurface b instance emu_window) w =
      evs ++ builder_events name instance ci.
Proof.
  intros H.
  destruct (CreateSurface_builder_run b instance emu_window w name H)
    as (ci & msg & evs & w1 & Hc & Hr & Hk & Hf & E).
  exists ci, msg, evs, w1. repeat split; auto.
  apply trace_appended. rewrite E, outcome_calls, Hc, app_assoc. reflexivity.
Qed.

Lemma CreateSurface_no_builder_trace b instance emu_window w :
  entry_point b (type (GetWindowInfo emu_window)) = None ->
  trace (CreateSurface b instance emu_window) w = [].
Proof.
  intros H. apply trace_appended.
  destruct (CreateSurface_no_builder_run b instance emu_window w H) as [_ E].
  rewrite E, app_nil_r. reflexivity.
Qed.

Lemma created_In name i ci status l :
  In (Ev_vkCreateSurface name i ci status) l -> In (name, i, ci) (created l).
Proof.
  induction l as [|e l IH]; [contradiction|].
  intros [->|H]; [left; reflexivity|].
  destruct e; cbn [created]; auto. right. auto.
Qed.

Lemma CreateSurface_result_shape b instance emu_window w :
  (exists s, fst (CreateSurface b instance emu_window w) = Returned s /\
             surface_handle s <> nullptr /\
             surface_owner s = handle instance /\
             surface_dld s = Dispatch instance) \/
  fst (CreateSurface b instance emu_window w) = Thrown SurfaceInitializationFailed.
Proof.
  destruct (entry_point b (type (GetWindowInfo emu_window))) as [name|] eqn:H.
  - destruct (CreateSurface_builder_run b instance emu_window w name H)
      as (ci & msg & evs & w1 & _ & _ & _ & _ & E).
    rewrite E. apply outcome_surface_or_failure.
  - destruct (CreateSurface_no_builder_run b instance emu_window w H) as [_ E].
    rewrite E. right. reflexivity.
Qed.

Lemma CreateSurface_absent b instance emu_window w name :
  entry_point b (type (GetWindowInfo emu_window)) = Some name ->
  vkGetInstanceProcAddr (Dispatch instance) (handle instance) name = None ->
  fst (CreateSurface b instance emu_window w) = Thrown SurfaceInitializationFailed.
Proof.
  intros H Ha.
  destruct (CreateSurface_builder_run b instance emu_window w name H)
    as (ci & msg & evs & w1 & _ & _ & _ & _ & E).
  rewrite E. apply outcome_absent. exact Ha.
Qed.

Lemma CreateSurface_rejected b instance emu_window w name i ci status :
  In (Ev_vkCreateSurface name i ci status)
     (trace (CreateSurface b instance emu_window) w) ->
  status <> VK_SUCCESS ->
  fst (CreateSurface b instance emu_window w) = Thrown SurfaceInitializationFailed.
Proof.
  intros Hin Hs.
  destruct (entry_point b (type (GetWindowInfo emu_window))) as [n|] eqn:H.
  - destruct (CreateSurface_builder_trace b instance emu_window w n H)
      as (ci' & msg & evs & w1 & _ & Hk & _ & E & Ht).
    rewrite Ht in Hin. apply in_app_or in Hin. destruct Hin as [Hin|Hin].
    + apply created_In in Hin. rewrite Hk in Hin. contradiction.
    + rewrite E. unfold builder_events in Hin.
      destruct (vkGetInstanceProcAddr (Dispatch instance) (handle instance) n)
        as [f|] eqn:Hf.
      * destruct Hin as [Hin|[Hin|[]]]; [discriminate|].
        injection Hin as _ _ _ Hst.
        apply (outcome_rejected n msg instance ci' w1 f Hf). congruence.
      * destruct Hin as [Hin|[]]. discriminate.
  - rewrite (CreateSurface_no_builder_trace b instance emu_window w H) in Hin.
    contradiction.
Qed.

Lemma CreateSurface_resolved b instance emu_window w :
  resolved (trace (CreateSurface b instance emu_window) w) =
    match entry_point b (type (GetWindowInfo emu_window)) with
    | Some name => [name]
    | None => []
    end.
Proof.
  destruct (entry_point b (type (GetWindowInfo emu_window))) as [name|] eqn:H.
  - destruct (CreateSurface_builder_trace b instance emu_window w name H)
      as (ci & msg & evs & w1 & Hr & _ & _ & _ & Ht).
    rewrite Ht, resolved_app, Hr, resolved_builder_events. reflexivity.
  - rewrite (CreateSurface_no_builder_trace b instance emu_window w H). reflexivity.
Qed.

Lemma CreateSurface_constructed b instance emu_window w :
  constructed (trace (CreateSurface b instance emu_window) w) =
    match entry_point b (type (GetWindowInfo emu_window)) with
    | Some name =>
        match vkGetInstanceProcAddr (Dispatch instance) (handle instance) name with
        | Some _ => [name]
        | None => []
        end
    | None => []
    end.
Proof.
  unfold constructed.
  destruct (entry_point b (type (GetWindowInfo emu_window))) as [name|] eqn:H.
  - destruct (CreateSurface_builder_trace b instance emu_window w name H)
      as (ci & msg & evs & w1 & _ & Hk & _ & _ & Ht).
    rewrite Ht, created_app, Hk, created_builder_events.
    destruct (vkGetInstanceProcAddr _ _ _); reflexivity.
  - rewrite (CreateSurface_no_builder_trace b instance emu_window w H). reflexivity.
Qed.

Lemma family_compiled_entry_point b t :
  family_compiled b t <-> entry_point b t <> None.
Proof.
  split.
  - intros (instance & wi & w & Ht & Hr) Hn. apply Hr.
    rewrite CreateSurface_resolved. cbn [GetWindowInfo]. rewrite Ht, Hn. reflexivity.
  - intros Hn.
    exists (sample_instance [] VK_SUCCESS nullptr),
           {| type := t; display_connection := nullptr; render_surface := nullptr |},
           (sample_world 0 0 0%float).
    split; [reflexivity|].
    rewrite CreateSurface_resolved. cbn [GetWindowInfo type].
    destruct (entry_point b t); [discriminate|contradiction].
Qed.

(** ** The dispatcher and the builders: claims C1 to C6 and C8 *)

(** C3.  When the discriminant of the window matches no builder kept for the
    build (the [Unsupported] discriminant matches none in any build), the
    chain of builders hands back the null handle it started from without
    touching the world, [CreateSurface] throws
    [vk::Exception(VK_ERROR_INITIALIZATION_FAILED)] after logging one line,
    and the call made no external call at all: no lookup, no surface
    constructor, no Objective-C message. *)
Theorem CreateSurface_no_builder_fails b instance emu_window w :
  entry_point b (type (GetWindowInfo emu_window)) = None ->
  CreateSurface_builders b instance (GetWindowInfo emu_window) w =
    (Returned nullptr, w) /\
  CreateSurface b instance emu_window w =
    (Thrown SurfaceInitializationFailed,
     logged "Presentation not supported on this platform" w) /\
  trace (CreateSurface b instance emu_window) w = [] /\
  entry_point b Unsupported = None.
Proof.
  intros H.
  destruct (CreateSurface_no_builder_run b instance emu_window w H) as [E1 E2].
  repeat split; auto using CreateSurface_no_builder_trace.
Qed.

Lemma CreateSurface_no_builder_fails_witness :
  fst (CreateSurface build_linux
         (sample_instance ["vkCreateWin32SurfaceKHR"] VK_SUCCESS 77)
         (sample_window Windows) (sample_world 300 400 2%float)) =
    Thrown SurfaceInitializationFailed /\
  trace (CreateSurface build_apple
           (sample_instance ["vkCreateMetalSurfaceEXT"] VK_SUCCESS 77)
           (sample_window Unsupported)) (sample_world 300 400 2%float) = [].
Proof.
  split.
  - rewrite (proj1 (proj2 (CreateSurface_no_builder_fails build_linux
               (sample_instance ["vkCreateWin32SurfaceKHR"] VK_SUCCESS 77)
               (sample_window Windows) (sample_world 300 400 2%float) eq_refl))).
    reflexivity.
  - apply (CreateSurface_no_builder_fails build_apple
             (sample_instance ["vkCreateMetalSurfaceEXT"] VK_SUCCESS 77)
             (sample_window Unsupported) (sample_world 300 400 2%float) eq_refl).
Defined.

(** C8.  For a window whose discriminant has no builder in the build, a
    second call made in the world the first call left behind has the same
    outcome as the first (the same exception) and the same, empty, trace;
    the Objective-C runtime and the history of external calls are what they
    were before the first call.  Each call writes its one diagnostic line to
    the log and nothing else. *)
Theorem CreateSurface_unsupported_twice b instance emu_window w :
  entry_point b (type (GetWindowInfo emu_window)) = None ->
  fst (CreateSurface b instance emu_window w) = Thrown SurfaceInitializationFailed /\
  fst (CreateSurface b instance emu_window
         (snd (CreateSurface b instance emu_window w))) =
    fst (CreateSurface b instance emu_window w) /\
  trace (CreateSurface b instance emu_window)
    (snd (CreateSurface b instance emu_window w)) =
    trace (CreateSurface b instance emu_window) w /\
  runtime (snd (CreateSurface b instance emu_window
                  (snd (CreateSurface b instance emu_window w)))) = runtime w /\
  calls (snd (CreateSurface b instance emu_window
                (snd (CreateSurface b instance emu_window w)))) = calls w /\
  log (snd (CreateSurface b instance emu_window
              (snd (CreateSurface b instance emu_window w)))) =
    log w ++ ["Presentation not supported on this platform";
              "Presentation not supported on this platform"].
Proof.
  intros H.
  rewrite !CreateSurface_no_builder_trace by exact H.
  destruct (CreateSurface_no_builder_run b instance emu_window w H) as [_ E1].
  rewrite E1. cbn [fst snd].
  destruct (CreateSurface_no_builder_run b instance emu_window
              (logged "Presentation not supported on this platform" w) H) as [_ E2].
  rewrite E2. cbn [fst snd logged runtime calls log].
  rewrite <- app_assoc. repeat split.
Qed.

Lemma CreateSurface_unsupported_twice_witness :
  fst (CreateSurface build_windows (sample_instance [] VK_SUCCESS 77)
         (sample_window X11)
         (snd (CreateSurface build_windows (sample_instance [] VK_SUCCESS 77)
                 (sample_window X11) (sample_world 300 400 2%float)))) =
  fst (CreateSurface build_windows (sample_instance [] VK_SUCCESS 77)
         (sample_window X11) (sample_world 300 400 2%float)).
Proof.
  apply (CreateSurface_unsupported_twice build_windows
           (sample_instance [] VK_SUCCESS 77) (sample_window X11)
           (sample_world 300 400 2%float) eq_refl).
Defined.

(** C4.  Take the builder the discriminant selects in the build and the
    constructor name it asks for.  If the instance's table answers null for
    that name, or the constructor, once called, answers a status other than
    [VK_SUCCESS], then [CreateSurface] throws
    [vk::Exception(VK_ERROR_INITIALIZATION_FAILED)] and so produces no
    surface.  There is no retry and no fallback: the call made exactly one
    lookup, of that name, and its constructor calls are none or one call
    of that same constructor. *)
Theorem CreateSurface_absent_or_rejected b instance emu_window w name :
  entry_point b (type (GetWindowInfo emu_window)) = Some name ->
  (vkGetInstanceProcAddr (Dispatch instance) (handle instance) name = None \/
   exists i ci status,
     In (Ev_vkCreateSurface name i ci status)
        (trace (CreateSurface b instance emu_window) w) /\
     status <> VK_SUCCESS) ->
  fst (CreateSurface b instance emu_window w) = Thrown SurfaceInitializationFailed /\
  resolved (trace (CreateSurface b instance emu_window) w) = [name] /\
  (constructed (trace (CreateSurface b instance emu_window) w) = [] \/
   constructed (trace (CreateSurface b instance emu_window) w) = [name]).
Proof.
  intros H Hfail. split; [|split].
  - destruct Hfail as [Ha|(i & ci & st & Hin & Hst)].
    + eapply CreateSurface_absent; eassumption.
    + eapply CreateSurface_rejected; eassumption.
  - rewrite CreateSurface_resolved, H. reflexivity.
  - rewrite CreateSurface_constructed, H.
    destruct (vkGetInstanceProcAddr _ _ _); auto.
Qed.

Lemma CreateSurface_absent_or_rejected_witness :
  (fst (CreateSurface build_linux (sample_instance ["vkCreateXlibSurfaceKHR"] VK_SUCCESS 77)
          (sample_window Wayland) (sample_world 300 400 2%float)) =
     Thrown SurfaceInitializationFailed /\
   resolved (trace (CreateSurface build_linux
                      (sample_instance ["vkCreateXlibSurfaceKHR"] VK_SUCCESS 77)
                      (sample_window Wayland)) (sample_world 300 400 2%float)) =
     ["vkCreateWaylandSurfaceKHR"]) /\
  (fst (CreateSurface build_apple (sample_instance ["vkCreateMetalSurfaceEXT"] (-1) 77)
          (sample_window MacOs) (sample_world 300 400 2%float)) =
     Thrown SurfaceInitializationFailed /\
   constructed (trace (CreateSurface build_apple
                         (sample_instance ["vkCreateMetalSurfaceEXT"] (-1) 77)
                         (sample_window MacOs)) (sample_world 300 400 2%float)) =
     ["vkCreateMetalSurfaceEXT"]).
Proof.
  split.
  - destruct (CreateSurface_absent_or_rejected build_linux
                (sample_instance ["vkCreateXlibSurfaceKHR"] VK_SUCCESS 77)
                (sample_window Wayland) (sample_world 300 400 2%float)
                "vkCreateWaylandSurfaceKHR" eq_refl (or_introl eq_refl))
      as (H1 & H2 & _).
    split; assumption.
  - destruct (CreateSurface_absent_or_rejected build_apple
                (sample_instance ["vkCreateMetalSurfaceEXT"] (-1) 77)
                (sample_window MacOs) (sample_world 300 400 2%float)
                "vkCreateMetalSurfaceEXT" eq_refl) as (H1 & _ & _).
    + right. exists 1, (MetalCreateInfo
                          {| metal_sType := VK_STRUCTURE_TYPE_METAL_SURFACE_CREATE_INFO_EXT;
                             metal_pNext := nullptr; metal_flags := 0; pLayer := 300 |}),
               (-1).
      split; [|discriminate]. vm_compute. do 10 right. left. reflexivity.
    + split; [assumption|reflexivity].
Defined.

(** C5, as the code has it.  Which builder runs is decided by the build and
    the discriminant alone: the lookups of a call are the one constructor
    name of the builder kept for that discriminant, or none, so at most one
    builder runs and it is the matching one.  The families kept per build
    are: the Windows builder exactly when [_WIN32] is defined, the Apple
    builder exactly when [__APPLE__] is defined, and the X11 and the Wayland
    builders, both, exactly when neither symbol is defined. *)
Theorem CreateSurface_builder_selection b instance emu_window w :
  resolved (trace (CreateSurface b instance emu_window) w) =
    match entry_point b (type (GetWindowInfo emu_window)) with
    | Some name => [name]
    | None => []
    end /\
  (family_compiled b Windows <-> _WIN32 b = true) /\
  (family_compiled b MacOs <-> __APPLE__ b = true) /\
  (family_compiled b X11 <-> _WIN32 b = false /\ __APPLE__ b = false) /\
  (family_compiled b Wayland <-> _WIN32 b = false /\ __APPLE__ b = false) /\
  ~ family_compiled b Unsupported.
Proof.
  split; [apply CreateSurface_resolved|].
  rewrite !family_compiled_entry_point.
  destruct b as [[|] [|]]; cbn; repeat split; intros;
    try congruence; try discriminate;
    repeat match goal with H : _ /\ _ |- _ => destruct H end;
    try congruence; try discriminate; auto.
Qed.

Lemma CreateSurface_builder_selection_witness :
  resolved (trace (CreateSurface build_linux
                     (sample_instance ["vkCreateXlibSurfaceKHR"] VK_SUCCESS 77)
                     (sample_window X11)) (sample_world 300 400 2%float)) =
    ["vkCreateXlibSurfaceKHR"] /\
  family_compiled build_linux Wayland.
Proof.
  destruct (CreateSurface_builder_selection build_linux
              (sample_instance ["vkCreateXlibSurfaceKHR"] VK_SUCCESS 77)
              (sample_window X11) (sample_world 300 400 2%float))
    as (H & _ & _ & _ & Hw & _).
  split; [exact H|].
  apply Hw. split; reflexivity.
Defined.

(** C5 as stated fails: a build with neither [_WIN32] nor [__APPLE__]
    keeps two builder families, X11 and Wayland, so "exactly one family per
    target" does not hold there. *)
Lemma two_families_in_one_build :
  ~ (exists! t, family_compiled build_linux t).
Proof.
  intros (t & _ & Hu).
  assert (Hx : family_compiled build_linux X11)
    by (apply family_compiled_entry_point; discriminate).
  assert (Hw : family_compiled build_linux Wayland)
    by (apply family_compiled_entry_point; discriminate).
  apply Hu in Hx. apply Hu in Hw. congruence.
Qed.

(** C6.  Whenever the builder selected for the window finds its
    constructor, the constructor is called once, with the raw instance
    handle and a record filled in as follows.  Windows: the Win32 structure
    tag, null [pNext], zero flags, null [hinstance], and the descriptor's
    render surface as [hwnd].  Apple: the Metal structure tag, null [pNext],
    zero flags, and as [pLayer] the pointer [MetalLayer] returned for the
    render surface.  X11: the Xlib structure tag, null [pNext], zero flags,
    the display connection as [dpy] and the render surface as [window].
    Wayland: the Wayland structure tag, null [pNext], zero flags, the display
    connection as [display] and the render surface as [surface]. *)
Theorem CreateSurface_creation_parameters b instance emu_window w name f :
  entry_point b (type (GetWindowInfo emu_window)) = Some name ->
  vkGetInstanceProcAddr (Dispatch instance) (handle instance) name = Some f ->
  exists ci,
    created (trace (CreateSurface b instance emu_window) w) =
      [(name, handle instance, ci)] /\
    match type (GetWindowInfo emu_window), ci with
    | Windows, Win32CreateInfo c =>
        win32_sType c = VK_STRUCTURE_TYPE_WIN32_SURFACE_CREATE_INFO_KHR /\
        win32_pNext c = nullptr /\ win32_flags c = 0 /\
        hinstance c = nullptr /\
        hwnd c = render_surface (GetWindowInfo emu_window)
    | MacOs, MetalCreateInfo c =>
        metal_sType c = VK_STRUCTURE_TYPE_METAL_SURFACE_CREATE_INFO_EXT /\
        metal_pNext c = nullptr /\ metal_flags c = 0 /\
        fst (MetalLayer (render_surface (GetWindowInfo emu_window)) w) =
          Returned (pLayer c)
    | X11, XlibCreateInfo c =>
        xlib_sType c = VK_STRUCTURE_TYPE_XLIB_SURFACE_CREATE_INFO_KHR /\
        xlib_pNext c = nullptr /\ xlib_flags c = 0 /\
        dpy c = display_connection (GetWindowInfo emu_window) /\
        window c = render_surface (GetWindowInfo emu_window)
    | Wayland, WaylandCreateInfo c =>
        wayland_sType c = VK_STRUCTURE_TYPE_WAYLAND_SURFACE_CREATE_INFO_KHR /\
        wayland_pNext c = nullptr /\ wayland_flags c = 0 /\
        display c = display_connection (GetWindowInfo emu_window) /\
        surface c = render_surface (GetWindowInfo emu_window)
    | _, _ => False
    end.
Proof.
  intros H Hf.
  destruct (CreateSurface_builder_trace b instance emu_window w name H)
    as (ci & msg & evs & w1 & _ & Hk & Hspec & _ & Ht).
  exists ci. split; [|exact Hspec].
  rewrite Ht, created_app, Hk, created_builder_events, Hf. reflexivity.
Qed.

Lemma CreateSurface_creation_parameters_witness :
  exists ci,
    created (trace (CreateSurface build_linux
                      (sample_instance ["vkCreateXlibSurfaceKHR"] VK_SUCCESS 77)
                      (sample_window X11)) (sample_world 300 400 2%float)) =
      [("vkCreateXlibSurfaceKHR", 1, ci)] /\
    match ci with
    | XlibCreateInfo c =>
        xlib_sType c = 1000004000 /\ xlib_pNext c = 0 /\ xlib_flags c = 0 /\
        dpy c = 7 /\ window c = 5
    | _ => False
    end.
Proof.
  apply (CreateSurface_creation_parameters build_linux
           (sample_instance ["vkCreateXlibSurfaceKHR"] VK_SUCCESS 77)
           (sample_window X11) (sample_world 300 400 2%float)
           "vkCreateXlibSurfaceKHR" (fun _ _ _ => (VK_SUCCESS, 77)) eq_refl eq_refl).
Defined.

(** X6 (the part of C2 the code keeps).  For every build, instance, window and world,
    [CreateSurface] either returns a surface whose raw handle is not null
    (bound to the instance's handle and dispatch table) or throws
    [vk::Exception(VK_ERROR_INITIALIZATION_FAILED)]; there is no other
    outcome.  A selected builder whose constructor is absent from the table,
    and any constructor call that answers a status other than [VK_SUCCESS],
    end in that one exception. *)
Theorem CreateSurface_surface_or_failure b instance emu_window w :
  ((exists s, fst (CreateSurface b instance emu_window w) = Returned s /\
              surface_handle s <> nullptr /\
              surface_owner s = handle instance /\
              surface_dld s = Dispatch instance) \/
   fst (CreateSurface b instance emu_window w) = Thrown SurfaceInitializationFailed) /\
  (forall name,
     entry_point b (type (GetWindowInfo emu_window)) = Some name ->
     vkGetInstanceProcAddr (Dispatch instance) (handle instance) name = None ->
     fst (CreateSurface b instance emu_window w) = Thrown SurfaceInitializationFailed) /\
  (forall name i ci status,
     In (Ev_vkCreateSurface name i ci status)
        (trace (CreateSurface b instance emu_window) w) ->
     status <> VK_SUCCESS ->
     fst (CreateSurface b instance emu_window w) = Thrown SurfaceInitializationFailed).
Proof.
  split; [apply CreateSurface_result_shape|split].
  - intros name. apply CreateSurface_absent.
  - intros name i ci status. apply CreateSurface_rejected.
Qed.

Lemma CreateSurface_surface_or_failure_witness :
  fst (CreateSurface build_windows (sample_instance [] VK_SUCCESS 77)
         (sample_window Windows) (sample_world 300 400 2%float)) =
    Thrown SurfaceInitializationFailed /\
  fst (CreateSurface build_linux (sample_instance ["vkCreateXlibSurfaceKHR"] (-1) 77)
         (sample_window X11) (sample_world 300 400 2%float)) =
    Thrown SurfaceInitializationFailed.
Proof.
  split.
  - apply (proj1 (proj2 (CreateSurface_surface_or_failure build_windows
                           (sample_instance [] VK_SUCCESS 77)
                           (sample_window Windows) (sample_world 300 400 2%float)))
             "vkCreateWin32SurfaceKHR" eq_refl eq_refl).
  - apply (proj2 (proj2 (CreateSurface_surface_or_failure build_linux
                           (sample_instance ["vkCreateXlibSurfaceKHR"] (-1) 77)
                           (sample_window X11) (sample_world 300 400 2%float)))
             "vkCreateXlibSurfaceKHR" 1
             (XlibCreateInfo
                {| xlib_sType := VK_STRUCTURE_TYPE_XLIB_SURFACE_CREATE_INFO_KHR;
                   xlib_pNext := nullptr; xlib_flags := 0; dpy := 7; window := 5 |})
             (-1)).
    + vm_compute. right. left. reflexivity.
    + discriminate.
Defined.

(** C2 at the input where the code departs from it.  On an Apple build
    with the CAMetalLayer class present, no layer instantiated and a table
    whose [vkCreateMetalSurfaceEXT] accepts its argument, the adapter returns
    null -- a layer failure -- and [CreateSurface] nevertheless returns a
    surface: the layer failure is logged but not turned into the exception. *)
Theorem CreateSurface_layer_failure_returns_surface :
  fst (MetalLayer 5 (sample_world 0 400 2%float)) = Returned nullptr /\
  log (snd (MetalLayer 5 (sample_world 0 400 2%float))) =
    ["Failed to create Metal layer."] /\
  fst (CreateSurface build_apple
         (sample_instance ["vkCreateMetalSurfaceEXT"] VK_SUCCESS 77)
         (sample_window MacOs) (sample_world 0 400 2%float)) =
    Returned {| surface_handle := 77; surface_owner := 1;
                surface_dld :=
                  Dispatch (sample_instance ["vkCreateMetalSurfaceEXT"] VK_SUCCESS 77) |}.
Proof. repeat split. Qed.

(** C1, what the code does instead.  On an Apple build, for a [MacOs]
    window whose adapter call returns null, [CreateSurface] does not stop:
    when the table holds [vkCreateMetalSurfaceEXT] the constructor is
    invoked, once, with a record whose [pLayer] is null. *)
Theorem CreateSurface_null_layer_reaches_constructor b instance emu_window w f :
  __APPLE__ b = true ->
  type (GetWindowInfo emu_window) = MacOs ->
  fst (MetalLayer (render_surface (GetWindowInfo emu_window)) w) = Returned nullptr ->
  vkGetInstanceProcAddr (Dispatch instance) (handle instance)
    "vkCreateMetalSurfaceEXT" = Some f ->
  created (trace (CreateSurface b instance emu_window) w) =
    [("vkCreateMetalSurfaceEXT", handle instance,
      MetalCreateInfo
        {| metal_sType := VK_STRUCTURE_TYPE_METAL_SURFACE_CREATE_INFO_EXT;
           metal_pNext := nullptr; metal_flags := 0; pLayer := nullptr |})].
Proof.
  intros Hb Ht Hl Hf.
  assert (H : entry_point b (type (GetWindowInfo emu_window)) =
              Some "vkCreateMetalSurfaceEXT")
    by (rewrite Ht; cbn [entry_point]; rewrite Hb; reflexivity).
  destruct (CreateSurface_builder_trace b instance emu_window w _ H)
    as (ci & msg & evs & w1 & _ & Hk & Hspec & _ & Htr).
  rewrite Htr, created_app, Hk, created_builder_events, Hf.
  unfold filled_as_specified in Hspec. rewrite Ht, Hl in Hspec.
  destruct ci as [c|c|c|c]; try contradiction.
  destruct c as [sT pN fl pL].
  cbn [metal_sType metal_pNext metal_flags pLayer] in Hspec.
  destruct Hspec as (-> & -> & -> & Hp).
  injection Hp as <-. reflexivity.
Qed.

Lemma CreateSurface_null_layer_reaches_constructor_witness :
  created (trace (CreateSurface build_apple
                    (sample_instance ["vkCreateMetalSurfaceEXT"] VK_SUCCESS 77)
                    (sample_window MacOs)) (sample_world 0 400 2%float)) =
    [("vkCreateMetalSurfaceEXT", 1,
      MetalCreateInfo
        {| metal_sType := 1000217000; metal_pNext := 0; metal_flags := 0;
           pLayer := 0 |})].
Proof.
  apply (CreateSurface_null_layer_reaches_constructor build_apple
           (sample_instance ["vkCreateMetalSurfaceEXT"] VK_SUCCESS 77)
           (sample_window MacOs) (sample_world 0 400 2%float)
           (fun _ _ _ => (VK_SUCCESS, 77)) eq_refl eq_refl eq_refl eq_refl).
Defined.

(** ** Sample runs *)

(** The adapter failed, the constructor accepted the null layer: the caller
    gets a surface, and the log holds the adapter's line only. *)
Example null_layer_surface :
  exists s,
    CreateSurface build_apple
      (sample_instance ["vkCreateMetalSurfaceEXT"] VK_SUCCESS 77)
      (sample_window MacOs) (sample_world 0 400 2%float) =
      (Returned s,
       {| runtime := sample_runtime 0 400 2%float;
          calls := [Ev_objc_getClass "CAMetalLayer";
                    Ev_objc_getClass "CAMetalLayer";
                    Ev_objc_msgSend 100 "layer" [];
                    Ev_vkGetInstanceProcAddr 1 "vkCreateMetalSurfaceEXT";
                    Ev_vkCreateSurface "vkCreateMetalSurfaceEXT" 1
                      (MetalCreateInfo
                         {| metal_sType := 1000217000; metal_pNext := 0;
                            metal_flags := 0; pLayer := 0 |}) VK_SUCCESS];
          log := ["Failed to create Metal layer."] |}) /\
    surface_handle s = 77 /\ surface_owner s = 1.
Proof. eexists. repeat split. Qed.

Example xlib_surface :
  exists s,
    fst (CreateSurface build_linux
           (sample_instance ["vkCreateXlibSurfaceKHR"] VK_SUCCESS 77)
           (sample_window X11) (sample_world 300 400 2%float)) = Returned s /\
    surface_handle s = 77.
Proof. eexists. split; reflexivity. Qed.

(** A constructor that reports success but leaves the handle null is caught
    by the final test. *)
Example success_without_handle :
  CreateSurface build_windows
    (sample_instance ["vkCreateWin32SurfaceKHR"] VK_SUCCESS nullptr)
    (sample_window Windows) (sample_world 300 400 2%float) =
    (Thrown SurfaceInitializationFailed,
     {| runtime := sample_runtime 300 400 2%float;
        calls := [Ev_vkGetInstanceProcAddr 1 "vkCreateWin32SurfaceKHR";
                  Ev_vkCreateSurface "vkCreateWin32SurfaceKHR" 1
                    (Win32CreateInfo
                       {| win32_sType := 1000009000; win32_pNext := 0;
                          win32_flags := 0; hinstance := 0; hwnd := 5 |})
                    VK_SUCCESS];
        log := ["Presentation not supported on this platform"] |}).
Proof. reflexivity. Qed.

Example wayland_rejected :
  (fst (CreateSurface build_linux
          (sample_instance ["vkCreateWaylandSurfaceKHR"] (-1) 77)
          (sample_window Wayland) (sample_world 300 400 2%float)),
   log (snd (CreateSurface build_linux
               (sample_instance ["vkCreateWaylandSurfaceKHR"] (-1) 77)
               (sample_window Wayland) (sample_world 300 400 2%float)))) =
    (Thrown SurfaceInitializationFailed, ["Failed to initialize Wayland surface"]).
Proof. reflexivity. Qed.

Example metal_layer_scale :
  Objc.contentsScale
    (runtime (snd (CreateSurface build_apple
                     (sample_instance ["vkCreateMetalSurfaceEXT"] VK_SUCCESS 77)
                     (sample_window MacOs) (sample_world 300 400 2%float))))
    300 = 2%float.
Proof. reflexivity. Qed.

(** * Further properties of the adapter *)

Lemma emitted_appended {A} (c : M A) (w : World) (lines : list string) :
  log (snd (c w)) = log w ++ lines -> emitted c w = lines.
Proof. intros H. unfold emitted. rewrite H. apply skipn_length_app. Qed.

Lemma msgSend_setWantsLayer rt self b :
  self <> 0 ->
  Objc.objc_msgSend rt self "setWantsLayer:" [Objc.ArgBOOL b] =
    (Objc.RetVoid, Objc.setWantsLayer rt self b).
Proof.
  intros H. apply Z.eqb_neq in H.
  unfold Objc.objc_msgSend, Objc.nil. rewrite H. reflexivity.
Qed.

Lemma msgSend_setLayer rt self l :
  self <> 0 ->
  Objc.objc_msgSend rt self "setLayer:" [Objc.ArgId l] =
    (Objc.RetVoid, Objc.setLayer rt self l).
Proof.
  intros H. apply Z.eqb_neq in H.
  unfold Objc.objc_msgSend, Objc.nil. rewrite H. reflexivity.
Qed.

Lemma attach_layer_view rt view l :
  view <> 0 ->
  attach_layer rt view l = Objc.setLayer (Objc.setWantsLayer rt view true) view l.
Proof.
  intros H. unfold attach_layer.
  rewrite msgSend_setWantsLayer by assumption. cbn [snd].
  rewrite msgSend_setLayer by assumption. reflexivity.
Qed.

Lemma attach_layer_nil rt l : attach_layer rt Objc.nil l = rt.
Proof. reflexivity. Qed.


(** X1.  When the adapter succeeds on a view that is not nil, the view
    ends up asked to be layer-backed ([wantsLayer] is YES) and its layer is
    the very layer the adapter returns (lines 48-51, 65). *)
Theorem MetalLayer_attaches_layer (view : ptr) (w : World) :
  Objc.classes (runtime w) "CAMetalLayer" <> Objc.nil ->
  Objc.fresh_layer (runtime w) <> Objc.nil ->
  view <> Objc.nil ->
  exists l,
    fst (MetalLayer view w) = Returned l /\
    Objc.wantsLayer (runtime (snd (MetalLayer view w))) view = true /\
    Objc.layer (runtime (snd (MetalLayer view w))) view = l.
Proof.
  unfold Objc.nil. intros Hc Hl Hv.
  rewrite (MetalLayer_layer_created view w Hc Hl).
  exists (Objc.fresh_layer (runtime w)). cbn [fst snd runtime].
  rewrite (attach_layer_view _ _ _ Hv).
  cbn [Objc.setContentsScale Objc.setLayer Objc.setWantsLayer
       Objc.wantsLayer Objc.layer].
  rewrite !upd_same. repeat split.
Qed.

Lemma MetalLayer_attaches_layer_witness :
  exists l,
    fst (MetalLayer 5 (sample_world 300 400 2%float)) = Returned l /\
    Objc.wantsLayer (runtime (snd (MetalLayer 5 (sample_world 300 400 2%float)))) 5 =
      true /\
    Objc.layer (runtime (snd (MetalLayer 5 (sample_world 300 400 2%float)))) 5 = l.
Proof.
  apply (MetalLayer_attaches_layer 5 (sample_world 300 400 2%float));
    cbn; unfold Objc.nil; lia.
Defined.



(** X3.  A null render surface is not rejected.  With the class available
    and a layer instantiated, the adapter given a nil view still sends the
    two view messages (to nil, where they do nothing), changes no view
    property at all, sets the contents scale of the new layer and returns
    that layer. *)
Theorem MetalLayer_nil_view (w : World) :
  Objc.classes (runtime w) "CAMetalLayer" <> Objc.nil ->
  Objc.fresh_layer (runtime w) <> Objc.nil ->
  fst (MetalLayer nullptr w) = Returned (Objc.fresh_layer (runtime w)) /\
  Objc.wantsLayer (runtime (snd (MetalLayer nullptr w))) = Objc.wantsLayer (runtime w) /\
  Objc.layer (runtime (snd (MetalLayer nullptr w))) = Objc.layer (runtime w) /\
  Objc.contentsScale (runtime (snd (MetalLayer nullptr w)))
    (Objc.fresh_layer (runtime w)) = scale_factor (runtime w) /\
  In (Objc.nil, "setLayer:", [Objc.ArgId (Objc.fresh_layer (runtime w))])
     (messages (trace (MetalLayer nullptr) w)).
Proof.
  unfold Objc.nil. intros Hc Hl.
  pose proof (MetalLayer_layer_created nullptr w Hc Hl) as E.
  erewrite trace_appended by (rewrite E; reflexivity).
  rewrite E. cbn [fst snd runtime]. unfold nullptr.
  rewrite (attach_layer_nil (runtime w)).
  cbn [Objc.setContentsScale Objc.wantsLayer Objc.layer Objc.contentsScale].
  rewrite upd_same. repeat split.
  cbn [messages]. right. right. left. reflexivity.
Qed.

Lemma MetalLayer_nil_view_witness :
  fst (MetalLayer nullptr (sample_world 300 400 2%float)) = Returned 300 /\
  Objc.contentsScale
    (runtime (snd (MetalLayer nullptr (sample_world 300 400 2%float)))) 300 =
    2%float.
Proof.
  destruct (MetalLayer_nil_view (sample_world 300 400 2%float))
    as (H1 & _ & _ & H2 & _); try (cbn; unfold Objc.nil; lia).
  split; [exact H1|exact H2].
Defined.

(** X4.  The messages of a successful adapter run, in order: [layer] to
    the CAMetalLayer class, [setWantsLayer:YES] and then [setLayer:] to the
    view, [mainScreen] to the NSScreen class, [backingScaleFactor] to the
    screen obtained, and last [setContentsScale:] to the new layer with the
    factor obtained. *)
Theorem MetalLayer_message_order (view : ptr) (w : World) :
  Objc.classes (runtime w) "CAMetalLayer" <> Objc.nil ->
  Objc.fresh_layer (runtime w) <> Objc.nil ->
  messages (trace (MetalLayer view) w) =
    [(Objc.classes (runtime w) "CAMetalLayer", "layer", []);
     (view, "setWantsLayer:", [Objc.ArgBOOL true]);
     (view, "setLayer:", [Objc.ArgId (Objc.fresh_layer (runtime w))]);
     (Objc.classes (runtime w) "NSScreen", "mainScreen", []);
     (main_screen (runtime w), "backingScaleFactor", []);
     (Objc.fresh_layer (runtime w), "setContentsScale:",
      [Objc.ArgDouble (scale_factor (runtime w))])].
Proof.
  unfold Objc.nil. intros Hc Hl.
  pose proof (MetalLayer_layer_created view w Hc Hl) as E.
  erewrite trace_appended by (rewrite E; reflexivity).
  reflexivity.
Qed.

Lemma MetalLayer_message_order_witness :
  messages (trace (MetalLayer 5) (sample_world 300 400 2%float)) =
    [(100, "layer", []);
     (5, "setWantsLayer:", [Objc.ArgBOOL true]);
     (5, "setLayer:", [Objc.ArgId 300]);
     (200, "mainScreen", []);
     (400, "backingScaleFactor", []);
     (300, "setContentsScale:", [Objc.ArgDouble 2%float])].
Proof.
  apply (MetalLayer_message_order 5 (sample_world 300 400 2%float));
    cbn; unfold Objc.nil; lia.
Defined.

(** The adapter only appends to the log and to the call history, all its
    calls go to the Objective-C runtime, and it never throws. *)
Lemma MetalLayer_appends view w :
  exists l,
    fst (MetalLayer view w) = Returned l /\
    calls (snd (MetalLayer view w)) = calls w ++ trace (MetalLayer view) w /\
    log (snd (MetalLayer view w)) = log w ++ emitted (MetalLayer view) w /\
    forallb is_objc (trace (MetalLayer view) w) = true /\
    emitted (MetalLayer view) w =
      (if Objc.classes (runtime w) "CAMetalLayer" =? 0
       then ["Failed to get CAMetalLayer class."]
       else if Objc.fresh_layer (runtime w) =? 0
            then ["Failed to create Metal layer."] else []).
Proof.
  destruct (Z.eq_dec (Objc.classes (runtime w) "CAMetalLayer") 0) as [Hc|Hc].
  { pose proof (MetalLayer_class_unavailable view w Hc) as E.
    erewrite trace_appended by (rewrite E; reflexivity).
    erewrite emitted_appended by (rewrite E; reflexivity).
    rewrite E, Hc. eexists. repeat split. }
  rewrite (proj2 (Z.eqb_neq _ _) Hc).
  destruct (Z.eq_dec (Objc.fresh_layer (runtime w)) 0) as [Hl|Hl].
  { pose proof (MetalLayer_no_layer view w Hc Hl) as E.
    erewrite trace_appended by (rewrite E; reflexivity).
    erewrite emitted_appended by (rewrite E; reflexivity).
    rewrite E, Hl. eexists. repeat split. }
  rewrite (proj2 (Z.eqb_neq _ _) Hl).
  pose proof (MetalLayer_layer_created view w Hc Hl) as E.
  erewrite trace_appended by (rewrite E; reflexivity).
  erewrite emitted_appended by (rewrite E; cbn [snd log]; symmetry; apply app_nil_r).
  rewrite E. eexists. cbn [fst snd calls log]. rewrite app_nil_r. repeat split.
Qed.

(** X5.  The adapter logs exactly one line when it fails and none when it
    succeeds: the class line when the CAMetalLayer class is not available,
    the layer line when instantiation answers no object.  So a line was
    logged exactly when the pointer returned is null. *)
Theorem MetalLayer_log (view : ptr) (w : World) :
  emitted (MetalLayer view) w =
    (if Objc.classes (runtime w) "CAMetalLayer" =? 0
     then ["Failed to get CAMetalLayer class."]
     else if Objc.fresh_layer (runtime w) =? 0
          then ["Failed to create Metal layer."] else []) /\
  exists l,
    fst (MetalLayer view w) = Returned l /\
    length (emitted (MetalLayer view) w) = (if l =? nullptr then 1%nat else 0%nat).
Proof.
  destruct (MetalLayer_appends view w) as (l & Hr & _ & _ & _ & He).
  split; [exact He|]. rewrite He.
  destruct (Z.eq_dec (Objc.classes (runtime w) "CAMetalLayer") 0) as [Hc|Hc].
  { rewrite (MetalLayer_class_unavailable view w Hc), Hc. eexists. split; reflexivity. }
  rewrite (proj2 (Z.eqb_neq _ _) Hc).
  destruct (Z.eq_dec (Objc.fresh_layer (runtime w)) 0) as [Hl|Hl].
  { rewrite (MetalLayer_no_layer view w Hc Hl), Hl. eexists. split; reflexivity. }
  rewrite (proj2 (Z.eqb_neq _ _) Hl), (MetalLayer_layer_created view w Hc Hl).
  eexists. split; [reflexivity|].
  unfold nullptr. rewrite (proj2 (Z.eqb_neq _ _) Hl). reflexivity.
Qed.

(** * Further properties of [CreateSurface] *)

Lemma builder_result_parts name msg instance ci w1 :
  builder_result name msg instance ci w1 =
    (builder_value name instance ci,
     {| runtime := runtime w1;
        calls := calls w1 ++ builder_events name instance ci;
        log := log w1 ++ builder_lines name msg instance ci |}).
Proof.
  unfold builder_result, builder_outcome, checked, builder_value, builder_lines,
    builder_events, record, logged, not_supported_line. cbv zeta.
  destruct (vkGetInstanceProcAddr _ _ _) as [f|]; cbn [runtime calls log].
  - destruct (fst (f _ _ _) =? VK_SUCCESS); cbn [andb runtime calls log].
    + destruct (snd (f _ _ _) =? 0); cbn [negb runtime calls log];
        rewrite <- ?app_assoc, ?app_nil_r; reflexivity.
    + rewrite <- app_assoc. reflexivity.
  - reflexivity.
Qed.

Lemma calls_adapter_selected b wi name :
  entry_point b (type wi) = Some name ->
  calls_adapter b wi = WindowSystemType_eqb (type wi) MacOs.
Proof.
  unfold calls_adapter, entry_point.
  destruct (type wi), b as [[|] [|]]; cbn; congruence.
Qed.

Lemma calls_adapter_unselected b wi :
  entry_point b (type wi) = None -> calls_adapter b wi = false.
Proof.
  unfold calls_adapter, entry_point.
  destruct (type wi), b as [[|] [|]]; cbn; congruence.
Qed.

(** The run of a call whose discriminant selects a builder, in full. *)
Lemma CreateSurface_selected_run b instance emu_window w name :
  entry_point b (type (GetWindowInfo emu_window)) = Some name ->
  exists ci,
    filled_as_specified (GetWindowInfo emu_window)
      (fst (MetalLayer (render_surface (GetWindowInfo emu_window)) w)) ci /\
    CreateSurface b instance emu_window w =
      builder_result name (failure_line (type (GetWindowInfo emu_window)))
        instance ci (world_at_lookup (GetWindowInfo emu_window) w).
Proof.
  intros H. rewrite CreateSurface_run, CreateSurface_builders_run, H.
  unfold filled_as_specified, world_at_lookup.
  destruct (type (GetWindowInfo emu_window)) eqn:Ht; try discriminate.
  2: { destruct (MetalLayer_returns (render_surface (GetWindowInfo emu_window)) w)
         as (l & evs & Hl & _).
       eexists. split; [|reflexivity].
       cbn iota beta. cbn [pLayer metal_sType metal_pNext metal_flags].
       rewrite Hl. repeat split. }
  all: eexists; split; [|reflexivity]; cbn; repeat split.
Qed.

Lemma world_at_lookup_parts b wi w name :
  entry_point b (type wi) = Some name ->
  runtime (world_at_lookup wi w) =
    (if calls_adapter b wi then runtime (snd (MetalLayer (render_surface wi) w))
     else runtime w) /\
  calls (world_at_lookup wi w) =
    calls w ++ (if calls_adapter b wi then trace (MetalLayer (render_surface wi)) w
                else []) /\
  log (world_at_lookup wi w) =
    log w ++ (if calls_adapter b wi then emitted (MetalLayer (render_surface wi)) w
              else []).
Proof.
  intros H. rewrite (calls_adapter_selected b wi name H). unfold world_at_lookup.
  destruct (WindowSystemType_eqb (type wi) MacOs).
  - destruct (MetalLayer_appends (render_surface wi) w) as (l & _ & Hc & Hl & _).
    auto.
  - rewrite !app_nil_r. auto.
Qed.

(** Outcome, trace, log and runtime of any call. *)
Lemma CreateSurface_parts b instance emu_window w :
  let wi := GetWindowInfo emu_window in
  let adapter := MetalLayer (render_surface wi) in
  match entry_point b (type wi) with
  | Some name =>
      exists ci,
        filled_as_specified wi (fst (adapter w)) ci /\
        fst (CreateSurface b instance emu_window w) = builder_value name instance ci /\
        trace (CreateSurface b instance emu_window) w =
          (if calls_adapter b wi then trace adapter w else []) ++
          builder_events name instance ci /\
        emitted (CreateSurface b instance emu_window) w =
          (if calls_adapter b wi then emitted adapter w else []) ++
          builder_lines name (failure_line (type wi)) instance ci /\
        runtime (snd (CreateSurface b instance emu_window w)) =
          (if calls_adapter b wi then runtime (snd (adapter w)) else runtime w)
  | None =>
      CreateSurface b instance emu_window w =
        (Thrown SurfaceInitializationFailed, logged not_supported_line w) /\
      calls_adapter b wi = false
  end.
Proof.
  cbv zeta.
  destruct (entry_point b (type (GetWindowInfo emu_window))) as [name|] eqn:H.
  - destruct (CreateSurface_selected_run b instance emu_window w name H)
      as (ci & Hspec & E).
    destruct (world_at_lookup_parts b (GetWindowInfo emu_window) w name H)
      as (Hr & Hc & Hl).
    exists ci. rewrite builder_result_parts in E.
    repeat split; try assumption.
    + rewrite E. reflexivity.
    + apply trace_appended. rewrite E. cbn [snd calls].
      rewrite Hc, app_assoc. reflexivity.
    + apply emitted_appended. rewrite E. cbn [snd log].
      rewrite Hl, app_assoc. reflexivity.
    + rewrite E. cbn [snd runtime]. exact Hr.
  - split; [|apply calls_adapter_unselected; exact H].
    apply (CreateSurface_no_builder_run b instance emu_window w H).
Qed.

Lemma objc_only_In l e : forallb is_objc l = true -> In e l -> is_objc e = true.
Proof. intros H Hin. rewrite forallb_forall in H. auto. Qed.

Lemma objc_only_statuses l : forallb is_objc l = true -> statuses l = [].
Proof.
  induction l as [|e l IH]; [reflexivity|].
  cbn [forallb]. intros H. apply andb_prop in H. destruct H as [He Hl].
  destruct e; try discriminate; cbn [statuses]; auto.
Qed.

Lemma objc_only_filter l : forallb is_objc l = true -> filter is_objc l = l.
Proof.
  induction l as [|e l IH]; [reflexivity|].
  cbn [forallb filter]. intros H. apply andb_prop in H. destruct H as [He Hl].
  rewrite He, IH by assumption. reflexivity.
Qed.

Lemma statuses_app l l' : statuses (l ++ l') = statuses l ++ statuses l'.
Proof.
  induction l as [|e l IH]; simpl; auto.
  destruct e; simpl; rewrite IH; reflexivity.
Qed.

Lemma adapter_events_objc b wi w :
  forallb is_objc
    (if calls_adapter b wi then trace (MetalLayer (render_surface wi)) w else []) = true.
Proof.
  destruct (calls_adapter b wi); [|reflexivity].
  destruct (MetalLayer_appends (render_surface wi) w) as (l & _ & _ & _ & H & _).
  exact H.
Qed.

(** A constructor call seen in a run is the selected builder's, with the
    instance's own handle, and its status is what the resolved constructor
    answers on a null handle. *)
Lemma constructor_event b instance emu_window w name i ci status f :
  vkGetInstanceProcAddr (Dispatch instance) (handle instance) name = Some f ->
  In (Ev_vkCreateSurface name i ci status)
     (trace (CreateSurface b instance emu_window) w) ->
  i = handle instance /\
  status = fst (f i ci nullptr) /\
  fst (CreateSurface b instance emu_window w) = builder_value name instance ci /\
  exists pre,
    emitted (CreateSurface b instance emu_window) w =
      pre ++ builder_lines name (failure_line (type (GetWindowInfo emu_window)))
               instance ci.
Proof.
  intros Hf Hin.
  pose proof (CreateSurface_parts b instance emu_window w) as P. cbv zeta in P.
  destruct (entry_point b (type (GetWindowInfo emu_window))) as [n|] eqn:H.
  - destruct P as (ci' & _ & Hv & Ht & He & _).
    rewrite Ht in Hin. apply in_app_or in Hin. destruct Hin as [Hin|Hin].
    + apply (objc_only_In _ _ (adapter_events_objc b _ w)) in Hin. discriminate.
    + unfold builder_events in Hin.
      destruct (vkGetInstanceProcAddr (Dispatch instance) (handle instance) n)
        as [f'|] eqn:Hf'.
      * destruct Hin as [Hin|[Hin|[]]]; [discriminate|].
        injection Hin as -> -> -> Hst.
        rewrite Hf in Hf'. injection Hf' as <-.
        repeat split; auto. eexists. exact He.
      * destruct Hin as [Hin|[]]. discriminate.
  - destruct P as [E _].
    rewrite (CreateSurface_no_builder_trace b instance emu_window w H) in Hin.
    contradiction.
Qed.

(** X7.  When the constructor looked up for the call reports [VK_SUCCESS]
    and leaves a handle that is not null, [CreateSurface] returns exactly
    that handle, bound to the handle and the function table of the instance
    it was given (line 140); the constructor was called on the instance's
    own handle. *)
Theorem CreateSurface_returns_constructed_handle
  b instance emu_window w name f i ci :
  vkGetInstanceProcAddr (Dispatch instance) (handle instance) name = Some f ->
  In (Ev_vkCreateSurface name i ci VK_SUCCESS)
     (trace (CreateSurface b instance emu_window) w) ->
  snd (f i ci nullptr) <> nullptr ->
  i = handle instance /\
  fst (CreateSurface b instance emu_window w) =
    Returned {| surface_handle := snd (f i ci nullptr);
                surface_owner := handle instance;
                surface_dld := Dispatch instance |}.
Proof.
  intros Hf Hin Hh.
  destruct (constructor_event b instance emu_window w name i ci _ f Hf Hin)
    as (-> & Hst & Hv & _).
  split; [reflexivity|]. rewrite Hv. unfold builder_value. rewrite Hf. cbv zeta.
  unfold nullptr in *. rewrite <- Hst, (proj2 (Z.eqb_neq _ _) Hh). reflexivity.
Qed.

Lemma CreateSurface_returns_constructed_handle_witness :
  fst (CreateSurface build_linux
         (sample_instance ["vkCreateWaylandSurfaceKHR"] VK_SUCCESS 77)
         (sample_window Wayland) (sample_world 300 400 2%float)) =
    Returned {| surface_handle := 77; surface_owner := 1;
                surface_dld :=
                  Dispatch (sample_instance ["vkCreateWaylandSurfaceKHR"] VK_SUCCESS 77) |}.
Proof.
  apply (CreateSurface_returns_constructed_handle build_linux
           (sample_instance ["vkCreateWaylandSurfaceKHR"] VK_SUCCESS 77)
           (sample_window Wayland) (sample_world 300 400 2%float)
           "vkCreateWaylandSurfaceKHR" (fun _ _ _ => (VK_SUCCESS, 77)) 1
           (WaylandCreateInfo
              {| wayland_sType := VK_STRUCTURE_TYPE_WAYLAND_SURFACE_CREATE_INFO_KHR;
                 wayland_pNext := nullptr; wayland_flags := 0;
                 display := 7; surface := 5 |})).
  - reflexivity.
  - vm_compute. right. left. reflexivity.
  - vm_compute. discriminate.
Defined.

(** X8.  A constructor that reports [VK_SUCCESS] but leaves the handle
    null does not get a null surface through: the final test (lines
    136-139) throws, and the last line logged is the "not supported" line,
    not the builder's own. *)
Theorem CreateSurface_success_without_handle
  b instance emu_window w name f i ci :
  vkGetInstanceProcAddr (Dispatch instance) (handle instance) name = Some f ->
  In (Ev_vkCreateSurface name i ci VK_SUCCESS)
     (trace (CreateSurface b instance emu_window) w) ->
  snd (f i ci nullptr) = nullptr ->
  fst (CreateSurface b instance emu_window w) = Thrown SurfaceInitializationFailed /\
  exists pre,
    emitted (CreateSurface b instance emu_window) w = pre ++ [not_supported_line].
Proof.
  intros Hf Hin Hh.
  destruct (constructor_event b instance emu_window w name i ci _ f Hf Hin)
    as (-> & Hst & Hv & pre & He).
  split.
  - rewrite Hv. unfold builder_value. rewrite Hf. cbv zeta.
    unfold nullptr in *. rewrite <- Hst, Hh. reflexivity.
  - exists pre. rewrite He. unfold builder_lines. rewrite Hf. cbv zeta.
    unfold nullptr in *. rewrite <- Hst, Hh. reflexivity.
Qed.

Lemma CreateSurface_success_without_handle_witness :
  fst (CreateSurface build_windows
         (sample_instance ["vkCreateWin32SurfaceKHR"] VK_SUCCESS nullptr)
         (sample_window Windows) (sample_world 300 400 2%float)) =
    Thrown SurfaceInitializationFailed.
Proof.
  apply (CreateSurface_success_without_handle build_windows
           (sample_instance ["vkCreateWin32SurfaceKHR"] VK_SUCCESS nullptr)
           (sample_window Windows) (sample_world 300 400 2%float)
           "vkCreateWin32SurfaceKHR" (fun _ _ _ => (VK_SUCCESS, nullptr)) 1
           (Win32CreateInfo
              {| win32_sType := VK_STRUCTURE_TYPE_WIN32_SURFACE_CREATE_INFO_KHR;
                 win32_pNext := nullptr; win32_flags := 0; hinstance := nullptr;
                 hwnd := 5 |})).
  - reflexivity.
  - vm_compute. right. left. reflexivity.
  - reflexivity.
Defined.

Lemma statuses_builder_events name instance ci :
  statuses (builder_events name instance ci) =
    match vkGetInstanceProcAddr (Dispatch instance) (handle instance) name with
    | None => []
    | Some f => [fst (f (handle instance) ci nullptr)]
    end.
Proof.
  unfold builder_events. destruct (vkGetInstanceProcAddr _ _ _); reflexivity.
Qed.

(** X9.  What a call logs.  After the adapter's line, if the call went
    through the adapter and it failed, a call that returns logs nothing and
    a call that throws logs exactly one line: the selected builder's own
    line when its constructor is absent from the table or answers a status
    other than [VK_SUCCESS], and the "not supported" line when no builder is
    selected or the constructor reported success without a handle. *)
Theorem CreateSurface_log b instance emu_window w :
  emitted (CreateSurface b instance emu_window) w =
    (if calls_adapter b (GetWindowInfo emu_window)
     then emitted (MetalLayer (render_surface (GetWindowInfo emu_window))) w
     else []) ++
    match fst (CreateSurface b instance emu_window w) with
    | Returned _ => []
    | Thrown _ =>
        [match entry_point b (type (GetWindowInfo emu_window)),
               statuses (trace (CreateSurface b instance emu_window) w) with
         | Some _, status :: _ =>
             if status =? VK_SUCCESS then not_supported_line
             else failure_line (type (GetWindowInfo emu_window))
         | Some _, [] => failure_line (type (GetWindowInfo emu_window))
         | None, _ => not_supported_line
         end]
    end.
Proof.
  pose proof (CreateSurface_parts b instance emu_window w) as P. cbv zeta in P.
  destruct (entry_point b (type (GetWindowInfo emu_window))) as [n|] eqn:H.
  - destruct P as (ci & _ & Hv & Ht & He & _).
    rewrite He, Hv, Ht, statuses_app,
      (objc_only_statuses _ (adapter_events_objc b _ w)), statuses_builder_events.
    f_equal. unfold builder_lines, builder_value. cbn [app].
    destruct (vkGetInstanceProcAddr _ _ _) as [f|]; [|reflexivity]. cbv zeta.
    destruct (fst (f _ _ _) =? VK_SUCCESS); cbn [andb]; [|reflexivity].
    destruct (snd (f _ _ _) =? 0); reflexivity.
  - destruct P as [E Ha]. rewrite Ha.
    erewrite emitted_appended by (rewrite E; reflexivity).
    rewrite E. reflexivity.
Qed.

(** X10.  A call that does not go through the adapter -- every call of a
    build without [__APPLE__], and every call for a window that is not
    [MacOs] -- leaves the Objective-C runtime as it was and makes no call
    into it: no class lookup, no message. *)
Theorem CreateSurface_leaves_objc_alone b instance emu_window w :
  calls_adapter b (GetWindowInfo emu_window) = false ->
  runtime (snd (CreateSurface b instance emu_window w)) = runtime w /\
  filter is_objc (trace (CreateSurface b instance emu_window) w) = [].
Proof.
  intros Ha.
  pose proof (CreateSurface_parts b instance emu_window w) as P. cbv zeta in P.
  destruct (entry_point b (type (GetWindowInfo emu_window))) as [n|] eqn:H.
  - destruct P as (ci & _ & _ & Ht & _ & Hr).
    rewrite Ha in *. split; [exact Hr|].
    rewrite Ht. unfold builder_events. cbn [app].
    destruct (vkGetInstanceProcAddr _ _ _); reflexivity.
  - destruct P as [E _].
    rewrite (CreateSurface_no_builder_trace b instance emu_window w H), E.
    split; reflexivity.
Qed.

Lemma CreateSurface_leaves_objc_alone_witness :
  runtime (snd (CreateSurface build_linux
                  (sample_instance ["vkCreateXlibSurfaceKHR"] VK_SUCCESS 77)
                  (sample_window X11) (sample_world 300 400 2%float))) =
    sample_runtime 300 400 2%float /\
  filter is_objc
    (trace (CreateSurface build_linux
              (sample_instance ["vkCreateXlibSurfaceKHR"] VK_SUCCESS 77)
              (sample_window MacOs)) (sample_world 300 400 2%float)) = [].
Proof.
  split.
  - apply (CreateSurface_leaves_objc_alone build_linux
             (sample_instance ["vkCreateXlibSurfaceKHR"] VK_SUCCESS 77)
             (sample_window X11) (sample_world 300 400 2%float) eq_refl).
  - apply (CreateSurface_leaves_objc_alone build_linux
             (sample_instance ["vkCreateXlibSurfaceKHR"] VK_SUCCESS 77)
             (sample_window MacOs) (sample_world 300 400 2%float) eq_refl).
Defined.




(** X12.  On the Apple path the adapter runs first and to its end, and
    what it did stays whatever follows.  All Objective-C calls of the run are
    the adapter's and precede the lookup of [vkCreateMetalSurfaceEXT], and
    the runtime [CreateSurface] leaves is the one the adapter left -- also
    when the lookup or the constructor then fails and [CreateSurface]
    throws: a view made layer-backed stays so. *)
Theorem CreateSurface_adapter_first b instance emu_window w :
  calls_adapter b (GetWindowInfo emu_window) = true ->
  runtime (snd (CreateSurface b instance emu_window w)) =
    runtime (snd (MetalLayer (render_surface (GetWindowInfo emu_window)) w)) /\
  exists rest,
    trace (CreateSurface b instance emu_window) w =
      trace (MetalLayer (render_surface (GetWindowInfo emu_window))) w ++ rest /\
    filter is_objc rest = [] /\
    resolved rest = ["vkCreateMetalSurfaceEXT"].
Proof.
  intros Ha.
  pose proof (CreateSurface_parts b instance emu_window w) as P. cbv zeta in P.
  destruct (entry_point b (type (GetWindowInfo emu_window))) as [n|] eqn:H.
  - destruct P as (ci & _ & _ & Ht & _ & Hr).
    rewrite Ha in *. split; [exact Hr|].
    exists (builder_events n instance ci). split; [exact Ht|].
    assert (Hn : n = "vkCreateMetalSurfaceEXT").
    { unfold calls_adapter, entry_point in *.
      destruct (type (GetWindowInfo emu_window)), b as [[|] [|]];
        cbn in *; congruence. }
    subst n. rewrite resolved_builder_events. split; [|reflexivity].
    unfold builder_events. destruct (vkGetInstanceProcAddr _ _ _); reflexivity.
  - destruct P as [_ Hf]. congruence.
Qed.

Lemma CreateSurface_adapter_first_witness :
  fst (CreateSurface build_apple (sample_instance [] VK_SUCCESS 77)
         (sample_window MacOs) (sample_world 300 400 2%float)) =
    Thrown SurfaceInitializationFailed /\
  Objc.wantsLayer
    (runtime (snd (CreateSurface build_apple (sample_instance [] VK_SUCCESS 77)
                     (sample_window MacOs) (sample_world 300 400 2%float)))) 5 =
    true.
Proof.
  split; [reflexivity|].
  rewrite (proj1 (CreateSurface_adapter_first build_apple
                    (sample_instance [] VK_SUCCESS 77) (sample_window MacOs)
                    (sample_world 300 400 2%float) eq_refl)).
  reflexivity.
Defined.

(** X13.  Handles the selected builder has no use for are ignored.  The
    display connection plays no part for a [Windows] or a [MacOs] window
    (their records have no field for it), and when no builder is selected
    neither handle is looked at. *)
Theorem CreateSurface_ignores_unused_handles b instance t dc dc' rs rs' w :
  (t = Windows \/ t = MacOs ->
   CreateSurface b instance
     {| GetWindowInfo := {| type := t; display_connection := dc;
                            render_surface := rs |} |} w =
   CreateSurface b instance
     {| GetWindowInfo := {| type := t; display_connection := dc';
                            render_surface := rs |} |} w) /\
  (entry_point b t = None ->
   CreateSurface b instance
     {| GetWindowInfo := {| type := t; display_connection := dc;
                            render_surface := rs |} |} w =
   CreateSurface b instance
     {| GetWindowInfo := {| type := t; display_connection := dc';
                            render_surface := rs' |} |} w).
Proof.
  split.
  - intros Ht. rewrite !CreateSurface_run, !CreateSurface_builders_run.
    cbn [GetWindowInfo type render_surface].
    destruct Ht as [-> | ->]; reflexivity.
  - intros H.
    rewrite (proj2 (CreateSurface_no_builder_run b instance
                      {| GetWindowInfo := {| type := t; display_connection := dc;
                                             render_surface := rs |} |} w H)).
    rewrite (proj2 (CreateSurface_no_builder_run b instance
                      {| GetWindowInfo := {| type := t; display_connection := dc';
                                             render_surface := rs' |} |} w H)).
    reflexivity.
Qed.

Lemma CreateSurface_ignores_unused_handles_witness :
  CreateSurface build_windows
    (sample_instance ["vkCreateWin32SurfaceKHR"] VK_SUCCESS 77)
    {| GetWindowInfo := {| type := Windows; display_connection := 7;
                           render_surface := 5 |} |}
    (sample_world 300 400 2%float) =
  CreateSurface build_windows
    (sample_instance ["vkCreateWin32SurfaceKHR"] VK_SUCCESS 77)
    {| GetWindowInfo := {| type := Windows; display_connection := 8;
                           render_surface := 5 |} |}
    (sample_world 300 400 2%float).
Proof.
  apply (proj1 (CreateSurface_ignores_unused_handles build_windows
                  (sample_instance ["vkCreateWin32SurfaceKHR"] VK_SUCCESS 77)
                  Windows 7 8 5 5 (sample_world 300 400 2%float))).
  left. reflexivity.
Defined.
